(** * BOTLISTA: the channel-broadcast bot of [updated_divulgahotbot.py]

    A shallow embedding of the bot's persistence functions, of its
    chat-member handler and of the scheduled broadcast, together with the
    properties its specification states about them.

    The [canais] table is a finite map from [chat_id] to the nullable
    [last_interaction_date] column.  Effects (the table, the wall clock, the
    messages sent, the log) live in an explicit [World]; Python exceptions
    are an outcome next to the world, so that a [try]/[except] is a real
    handler and an exception that nobody catches really leaves a loop.

    Assumptions of the model: a handler or a broadcast run goes from start
    to end without another one running in between (the awaits are not
    interleaving points here); the clock moves only by the sleeps of the
    code and by time given from outside; the SQLite calls themselves do not
    fail.  What can raise is [send_message] (the transport) and the reading
    of an attribute that the object does not have; the replies of the menu
    handlers are recorded as events and their failure is not modelled, which
    is harmless for the process as a whole: whatever a handler raises is
    caught by the application that runs it (see [dispatch_update]). *)

From stdpp Require Import gmap strings list fin_maps pretty.
From Stdlib Require Import ZArith Lia.

#[local] Set Warnings "-clear-no-such-hyp".

Local Open Scope string_scope.
Local Open Scope list_scope.
Local Open Scope Z_scope.

(** ** Calendar dates: [datetime.now().strftime("%Y-%m-%d")] *)

Module Calendar.

(** Civil date (year, month, day) of a day count since 1970-01-01, in the
    proleptic Gregorian calendar, as [datetime] computes it. *)
Definition civil_from_days (days : Z) : Z * Z * Z :=
  let z := days + 719468 in
  let era := z `div` 146097 in
  let doe := z - era * 146097 in
  let yoe := (doe - doe `div` 1460 + doe `div` 36524 - doe `div` 146096) `div` 365 in
  let doy := doe - (365 * yoe + yoe `div` 4 - yoe `div` 100) in
  let mp := (5 * doy + 2) `div` 153 in
  let d := doy - (153 * mp + 2) `div` 5 + 1 in
  let m := if decide (mp < 10) then mp + 3 else mp - 9 in
  let y := yoe + era * 400 in
  (if decide (m ≤ 2) then y + 1 else y, m, d).

Definition digit (n : Z) : Ascii.ascii :=
  Ascii.ascii_of_N (48 + Z.to_N (n `mod` 10)).

(** [n] in decimal on exactly [width] digits, zero padded. *)
Fixpoint zfill (width : nat) (n : Z) (acc : string) : string :=
  match width with
  | O => acc
  | S width' => zfill width' (n `div` 10) (String (digit n) acc)
  end.

(** [strftime("%Y-%m-%d")] of the day that holds [seconds] (seconds since
    the epoch, already shifted to local time). *)
Definition strftime_Ymd (seconds : Z) : string :=
  let '(y, m, d) := civil_from_days (seconds `div` 86400) in
  zfill 4 y "" +:+ "-" +:+ zfill 2 m "" +:+ "-" +:+ zfill 2 d "".

(** Seconds since local midnight. *)
Definition time_of_day (seconds : Z) : Z := seconds `mod` 86400.

End Calendar.

(** ** The world the bot runs in *)

(** What the process does that an observer can see. *)
Inductive Event :=
  | SendMessage (chat_id : Z) (text : string) (delivered : bool)
  | Sleep (seconds : Z)
  | LogInfo (msg : string)
  | LogError (msg : string)
  | ReplyText (text : string) (buttons : list (string * string))
  | AnswerCallback
  | EditMessageText (text : string).

Global Instance Event_eq_dec : EqDecision Event.
Proof. solve_decision. Defined.

(** A Python exception, with the text that [f"{e}"] prints. *)
Inductive Exn := Exception (msg : string).

Definition exn_str (e : Exn) : string := let 'Exception msg := e in msg.

(** [canais]: the table [chat_id INTEGER PRIMARY KEY, last_interaction_date
    TEXT]; [clock]: POSIX seconds; [utcoffset]: offset of the host's local
    time from UTC in seconds, which is what the naive [datetime.now()] uses;
    [trace]: the events so far, oldest first. *)
Record World := mkWorld {
  canais : gmap Z (option string);
  clock : Z;
  utcoffset : Z;
  trace : list Event
}.

Definition set_canais (f : gmap Z (option string) → gmap Z (option string))
    (w : World) : World :=
  mkWorld (f (canais w)) (clock w) (utcoffset w) (trace w).

Definition emit (e : Event) (w : World) : World :=
  mkWorld (canais w) (clock w) (utcoffset w) (trace w ++ [e]).

Definition advance (seconds : Z) (w : World) : World :=
  mkWorld (canais w) (clock w + seconds) (utcoffset w) (trace w).

(** ** Computations: state and exceptions *)

Inductive Outcome (A : Type) :=
  | Returned (a : A)
  | Raised (e : Exn).
Arguments Returned {A} a.
Arguments Raised {A} e.

Definition M (A : Type) : Type := World → World * Outcome A.

Global Instance M_ret : MRet M := λ A a w, (w, Returned a).

Global Instance M_bind : MBind M := λ A B f m w,
  match m w with
  | (w', Returned a) => f a w'
  | (w', Raised e) => (w', Raised e)
  end.

Definition raise {A} (e : Exn) : M A := λ w, (w, Raised e).

(** [try: body  except Exception as e: handler e] *)
Definition try_except {A} (body : M A) (handler : Exn → M A) : M A := λ w,
  match body w with
  | (w', Returned a) => (w', Returned a)
  | (w', Raised e) => handler e w'
  end.

(** [for x in xs: body x] *)
Fixpoint for_each {A} (xs : list A) (body : A → M unit) : M unit :=
  match xs with
  | [] => mret ()
  | x :: xs' => body x;; for_each xs' body
  end.

Definition gets {A} (f : World → A) : M A := λ w, (w, Returned (f w)).
Definition modify (f : World → World) : M unit := λ w, (f w, Returned ()).

Definition logger_info (msg : string) : M unit := modify (emit (LogInfo msg)).
Definition logger_error (msg : string) : M unit := modify (emit (LogError msg)).

(** [await asyncio.sleep(n)]: the clock moves on by [n] seconds. *)
Definition asyncio_sleep (seconds : Z) : M unit :=
  modify (λ w, advance seconds (emit (Sleep seconds) w)).

(** [datetime.now().strftime("%Y-%m-%d")]: naive local time of the host. *)
Definition today_of (w : World) : string :=
  Calendar.strftime_Ymd (clock w + utcoffset w).

Definition datetime_now_strftime : M string := gets today_of.

(** ** Configuration *)

(** [brasilia_tz = pytz.timezone('America/Sao_Paulo')], "GMT-3". *)
Definition brasilia_tz : Z := -3 * 3600.

(** The calendar date in the broadcast timezone. *)
Definition today_in_brasilia (w : World) : string :=
  Calendar.strftime_Ymd (clock w + brasilia_tz).

(** ** Persistence *)

Definition get_last_interaction_date (canal_id : Z) : M (option string) :=
  gets (λ w,
    match canais w !! canal_id with
    | Some result => result
    | None => None
    end).

(** [UPDATE canais SET last_interaction_date = ? WHERE chat_id = ?] *)
Definition update_last_interaction_date (canal_id : Z) (date : string) : M unit :=
  modify (set_canais (alter (λ _, Some date) canal_id)).

(** [INSERT OR IGNORE INTO canais (chat_id) VALUES (?)]: a new row has no
    date; a row that is there is left alone. *)
Definition insert_or_ignore (chat_id : Z) (t : gmap Z (option string))
    : gmap Z (option string) :=
  match t !! chat_id with
  | Some _ => t
  | None => <[chat_id := None]> t
  end.

Definition add_canal (chat_id : Z) : M unit :=
  modify (set_canais (insert_or_ignore chat_id)).

(** [SELECT * FROM canais]: the rows, in the order the engine yields them. *)
Definition get_canais : M (list (Z * option string)) :=
  gets (λ w, map_to_list (canais w)).

(** ** The messaging transport *)

(** [context.bot] / [app.bot]: its identity, and what the network does with a
    [send_message] issued in a given world ([None]: delivered; [Some e]: the
    call raises [e]).  The answer may depend on everything that happened
    before, which the world records. *)
Record Bot := mkBot {
  bot_id : Z;
  send_result : World → Z → string → option Exn
}.

Definition send_message (bot : Bot) (chat_id : Z) (text : string) : M unit := λ w,
  match send_result bot w chat_id text with
  | None => (emit (SendMessage chat_id text true) w, Returned ())
  | Some e => (emit (SendMessage chat_id text false) w, Raised e)
  end.

(** A chat member as the handler reads it: [.user.id] and [.status]. *)
Record ChatMember := mkChatMember {
  user_id : Z;
  status : string
}.

(** [telegram.ChatMemberUpdated]: the chat it happened in, and the member
    before and after. *)
Record ChatMemberUpdated := mkChatMemberUpdated {
  member_chat : Z;
  old_chat_member : ChatMember;
  new_chat_member : ChatMember
}.

(** [telegram.Update], as far as chat-member changes go.  A change of the
    bot's own membership arrives in [my_chat_member], a change of another
    member in [chat_member]; the attribute that does not apply is [None].
    An [Update] has no attribute [chat]. *)
Record Update := mkUpdate {
  chat_member : option ChatMemberUpdated;
  my_chat_member : option ChatMemberUpdated
}.

(** [update.chat.id]: the attribute lookup [update.chat] fails, with
    AttributeError. *)
Definition update_chat_id (update : Update) : M Z :=
  raise (Exception "'Update' object has no attribute 'chat'").

Record Context := mkContext { bot : Bot }.

(** ** The welcome flow *)

Definition nl : string := String (Ascii.ascii_of_N 10) "".

Definition welcome_text : string :=
  "🎉 Olá! Eu sou o bot responsável por ajudar a gerenciar e promover seu canal!"
  +:+ nl +:+ nl +:+
  "Agora que você me adicionou como administrador, eu posso enviar mensagens programadas para o seu canal."
  +:+ nl +:+
  "Fique atento às instruções e aproveite todos os benefícios!".

Definition send_welcome_message (update : Update) (context : Context)
    (chat_id : Z) : M unit :=
  try_except
    (send_message (bot context) chat_id welcome_text;;
     add_canal chat_id;;
     logger_info ("Canal " +:+ pretty chat_id +:+ " registrado com sucesso!"))
    (λ e,
     logger_error ("Erro ao enviar mensagem de boas-vindas para o canal "
                   +:+ pretty chat_id +:+ ": " +:+ exn_str e)).

(** [new_member = update.chat_member]; when that is [None], reading
    [new_member.new_chat_member] raises AttributeError. *)
Definition on_chat_member_update (update : Update) (context : Context) : M unit :=
  match chat_member update with
  | None => raise (Exception "'NoneType' object has no attribute 'new_chat_member'")
  | Some new_member =>
      if bool_decide (user_id (new_chat_member new_member) = bot_id (bot context)) then
        if bool_decide (status (new_chat_member new_member) ∈ ["administrator"; "creator"]) then
          chat_id ← update_chat_id update;
          send_welcome_message update context chat_id
        else mret ()
      else mret ()
  end.

(** ** The scheduled broadcast *)

Definition broadcast_text : string := "Aqui estão os canais disponíveis...".

(** The body of the [for canal in canais] loop. *)
Definition enviar_para_canal (bot : Bot) (canal : Z * option string) : M unit :=
  let canal_id := canal.1 in
  last_interaction ← get_last_interaction_date canal_id;
  today ← datetime_now_strftime;
  if bool_decide (last_interaction = Some today) then
    logger_info ("Canal " +:+ pretty canal_id +:+ " já foi atualizado hoje.")
  else
    asyncio_sleep 5;;
    try_except
      (send_message bot canal_id broadcast_text;;
       update_last_interaction_date canal_id today)
      (λ e,
       logger_error ("Erro ao enviar para " +:+ pretty canal_id +:+ ": " +:+ exn_str e);;
       asyncio_sleep 10).

Definition enviar_mensagem_programada (bot : Bot) : M unit :=
  canais ← get_canais;
  for_each canais (enviar_para_canal bot).

(** ** The interactive menu *)

Definition start : M unit :=
  let keyboard :=
    [("Cadastrar meu canal", "cadastrar_canal");
     ("Como funciona o bot?", "como_funciona")] in
  modify (emit (ReplyText "Bem-vindo! Como posso te ajudar hoje?" keyboard)).

Definition button (data : string) : M unit :=
  modify (emit AnswerCallback);;
  if bool_decide (data = "cadastrar_canal") then
    modify (emit (EditMessageText
      "Vamos começar o cadastro do seu canal! Adicione o bot como administrador e aguarde a mensagem de boas-vindas."))
  else if bool_decide (data = "como_funciona") then
    modify (emit (EditMessageText
      "Eu ajudo a gerenciar canais, enviar mensagens programadas, e muito mais!"))
  else mret ().

(** ** Start-up and the running process *)

(** The four cron jobs of [main], as (hour, minute), all in [brasilia_tz]. *)
Definition jobs : list (Z * Z) := [(21, 30); (4, 0); (11, 0); (18, 20)].

(** Does a cron job fire at the instant [t] (POSIX seconds)? *)
Definition cron_fires (t : Z) : bool :=
  bool_decide (Calendar.time_of_day (t + brasilia_tz)
               ∈ (λ hm : Z * Z, hm.1 * 3600 + hm.2 * 60) <$> jobs).

(** [os.getenv]: [env_ADMIN_ID] is the variable already read by [int(...)],
    [None] when it is unset or not a number (then [int] raises). *)
Record Environ := mkEnviron {
  env_BOT_TOKEN : option string;
  env_ADMIN_ID : option Z
}.

Inductive Startup :=
  | Configured (BOT_TOKEN : string) (ADMIN_ID : Z)
  | Exit (code : Z)
  | Crash.

(** The [=== CONFIG ===] block: [if not BOT_TOKEN or not ADMIN_ID: exit(1)]. *)
Definition load_config (env : Environ) : Startup :=
  match env_ADMIN_ID env with
  | None => Crash
  | Some ADMIN_ID =>
      match env_BOT_TOKEN env with
      | None => Exit 1
      | Some BOT_TOKEN =>
          if bool_decide (BOT_TOKEN = "") || bool_decide (ADMIN_ID = 0)
          then Exit 1
          else Configured BOT_TOKEN ADMIN_ID
      end
  end.

(** What reaches the process once it runs: an update routed to one of the
    three handlers, a firing of a cron job, or time going by. *)
Inductive Input :=
  | ChatMemberUpdate (update : Update)
  | StartCommand
  | CallbackQuery (data : string)
  | CronFire
  | Elapse (seconds : Z).

(** The application runs a handler inside its own [try]: an exception that
    leaves the handler is logged ("No error handlers are registered, logging
    exception.") and the application goes on with the next update. *)
Definition dispatch_update (handler : M unit) : M unit :=
  try_except handler
    (λ e, logger_error "No error handlers are registered, logging exception.").

(** [ChatMemberHandler(on_chat_member_update)], with the default type of the
    handler, takes the updates that carry [my_chat_member] and no others;
    [CommandHandler("start", start)] and [CallbackQueryHandler(button)] take
    theirs; the scheduler calls the broadcast. *)
Definition handle (bot : Bot) (input : Input) : M unit :=
  match input with
  | ChatMemberUpdate update =>
      match my_chat_member update with
      | Some _ => dispatch_update (on_chat_member_update update (mkContext bot))
      | None => mret ()
      end
  | StartCommand => dispatch_update start
  | CallbackQuery data => dispatch_update (button data)
  | CronFire => enviar_mensagem_programada bot
  | Elapse seconds => modify (advance seconds)
  end.

(** [main]: [connect] is [ApplicationBuilder().token(BOT_TOKEN).build()], the
    bot behind a token.  A process that does not get past the configuration
    block does nothing. *)
Definition main (env : Environ) (connect : string → Bot) (inputs : list Input)
    : M unit :=
  match load_config env with
  | Configured BOT_TOKEN ADMIN_ID =>
      let app_bot := connect BOT_TOKEN in
      logger_info "Iniciando o bot...";;
      logger_info "✅ Bot rodando com polling e agendamento diário!";;
      for_each inputs (handle app_bot)
  | Exit _ =>
      logger_error "BOT_TOKEN e/ou ADMIN_ID não definidos nas variáveis de ambiente!";;
      raise (Exception "SystemExit")
  | Crash => raise (Exception "TypeError")
  end.

(** ** Vocabulary of the statements *)

(** What [get_last_interaction_date] reads for a channel. *)
Definition stored (w : World) (canal_id : Z) : option string :=
  match canais w !! canal_id with
  | Some result => result
  | None => None
  end.

(** The events between an earlier world and a later one. *)
Definition emitted (w w' : World) : list Event :=
  drop (length (trace w)) (trace w').

(** A [send_message] to the channel was issued, whatever came of it. *)
Definition sent_to (canal_id : Z) (evs : list Event) : Prop :=
  ∃ text ok, SendMessage canal_id text ok ∈ evs.

(** The world in which the broadcast loop reaches the row that follows the
    rows [pre]. *)
Definition turn (bot : Bot) (pre : list (Z * option string)) (w : World) : World :=
  (for_each pre (enviar_para_canal bot) w).1.

(** The world after a whole run of the broadcast. *)
Definition after_run (bot : Bot) (w : World) : World :=
  (enviar_mensagem_programada bot w).1.

(** The eligibility rule in the words of the specification: no date stored,
    or a stored date strictly before today's. *)
Definition eligible_by_spec (last_broadcast_date : option string) (today : string) : Prop :=
  match last_broadcast_date with
  | None => True
  | Some d => String.ltb d today = true
  end.

Definition is_admin_status (s : string) : Prop := s ∈ ["administrator"; "creator"].

(** The rows that [get_canais] yields for one channel. *)
Definition rows_of (chat_id : Z) (w : World) : list (Z * option string) :=
  filter (λ row, row.1 = chat_id) (map_to_list (canais w)).

(** Is the event a [send_message] to the channel? *)
Definition is_send_to (canal_id : Z) (e : Event) : bool :=
  match e with
  | SendMessage c _ _ => bool_decide (c = canal_id)
  | _ => false
  end.

(** The number of [send_message] calls to the channel among the events. *)
Definition sends_to (canal_id : Z) (evs : list Event) : nat :=
  length (filter (λ e, is_send_to canal_id e = true) evs).

(** Pacing: the event right before every [send_message] is a five-second
    sleep. *)
Definition paced (evs : list Event) : Prop :=
  ∀ (i : nat) c text ok,
    evs !! i = Some (SendMessage c text ok) →
    ∃ j : nat, i = S j ∧ evs !! j = Some (Sleep 5).

(** One pass of the loop body, case by case. *)
Inductive body_case (bot : Bot) (c : Z) (w : World) : World → list Event → Prop :=
  | body_skipped :
      stored w c = Some (today_of w) →
      body_case bot c w
        (emit (LogInfo ("Canal " +:+ pretty c +:+ " já foi atualizado hoje.")) w)
        [LogInfo ("Canal " +:+ pretty c +:+ " já foi atualizado hoje.")]
  | body_delivered :
      stored w c ≠ Some (today_of w) →
      send_result bot (advance 5 (emit (Sleep 5) w)) c broadcast_text = None →
      body_case bot c w
        (set_canais (alter (λ _, Some (today_of w)) c)
           (emit (SendMessage c broadcast_text true) (advance 5 (emit (Sleep 5) w))))
        [Sleep 5; SendMessage c broadcast_text true]
  | body_failed e :
      stored w c ≠ Some (today_of w) →
      send_result bot (advance 5 (emit (Sleep 5) w)) c broadcast_text = Some e →
      body_case bot c w
        (advance 10 (emit (Sleep 10)
           (emit (LogError ("Erro ao enviar para " +:+ pretty c +:+ ": " +:+ exn_str e))
              (emit (SendMessage c broadcast_text false) (advance 5 (emit (Sleep 5) w))))))
        [Sleep 5; SendMessage c broadcast_text false;
         LogError ("Erro ao enviar para " +:+ pretty c +:+ ": " +:+ exn_str e);
         Sleep 10].

(** ** Concrete worlds *)

Module Scenario.

(** A transport that delivers everything, and one that fails for a single
    chat; the bot's own user id is 7. *)
Definition delivers : Bot := mkBot 7 (λ _ _ _, None).

Definition fails_for (chat_id : Z) : Bot :=
  mkBot 7 (λ _ c _,
    if bool_decide (c = chat_id) then Some (Exception "Forbidden") else None).

(** 2024-01-02, 11:00 in São Paulo, on a host that keeps São Paulo time;
    channel 100 was last served on 2024-01-01, channel 200 never. *)
Definition jan2 : World :=
  mkWorld (<[200 := None]> {[100 := Some "2024-01-01"]}) 1704204000 brasilia_tz [].

(** 2024-01-01, 18:20 in São Paulo (21:20 UTC), on a host that keeps UTC;
    channel 100 is registered and was never served. *)
Definition utc_host : World := mkWorld {[100 := None]} 1704144000 0 [].

(** The same host at the 21:30 firing of that day in São Paulo, which is
    00:30 of 2024-01-02 in UTC. *)
Definition utc_host_2130 : World := mkWorld {[100 := None]} 1704155400 0 [].

(** The bot is promoted in chat -1001, and its rights there are edited: both
    arrive as [my_chat_member] updates.  [promoted_in_chat_member] carries the
    same change in [chat_member].  Another user is promoted there: a
    [chat_member] update. *)
Definition promoted : Update :=
  mkUpdate None
    (Some (mkChatMemberUpdated (-1001) (mkChatMember 7 "member")
                                       (mkChatMember 7 "administrator"))).

Definition rights_edited : Update :=
  mkUpdate None
    (Some (mkChatMemberUpdated (-1001) (mkChatMember 7 "administrator")
                                       (mkChatMember 7 "administrator"))).

Definition promoted_in_chat_member : Update :=
  mkUpdate
    (Some (mkChatMemberUpdated (-1001) (mkChatMember 7 "member")
                                       (mkChatMember 7 "administrator")))
    None.

Definition other_promoted : Update :=
  mkUpdate
    (Some (mkChatMemberUpdated (-1001) (mkChatMember 8 "member")
                                       (mkChatMember 8 "administrator")))
    None.

End Scenario.

(** ** Basic facts *)

Lemma World_eta (w : World) :
  mkWorld (canais w) (clock w) (utcoffset w) (trace w) = w.
Proof. by destruct w. Qed.

Lemma emitted_app (w w' : World) (evs : list Event) :
  trace w' = trace w ++ evs → emitted w w' = evs.
Proof. intros Htr. unfold emitted. by rewrite Htr, drop_app_length. Qed.

Lemma for_each_app {A} (xs ys : list A) (body : A → M unit) (w : World) :
  for_each (xs ++ ys) body w
  = match for_each xs body w with
    | (w', Returned _) => for_each ys body w'
    | (w', Raised e) => (w', Raised e)
    end.
Proof.
  revert w. induction xs as [|x xs IH]; intros w; simpl; [done|].
  unfold mbind, M_bind. destruct (body x w) as [w1 [[]|e]]; [apply IH|done].
Qed.

Lemma enviar_para_canal_case (bot : Bot) (c : Z) (x : option string) (w : World) :
  ∃ w' evs, enviar_para_canal bot (c, x) w = (w', Returned ())
            ∧ body_case bot c w w' evs.
Proof.
  unfold enviar_para_canal, mbind, M_bind, get_last_interaction_date,
    datetime_now_strftime, gets; simpl.
  fold (stored w c). case_bool_decide as Hgate.
  - eexists _, _. split; [reflexivity|]. by constructor.
  - unfold try_except, send_message, asyncio_sleep, modify; simpl.
    destruct (send_result bot (advance 5 (emit (Sleep 5) w)) c broadcast_text)
      as [e|] eqn:Hnet.
    + eexists _, _. split; [reflexivity|]. by apply body_failed.
    + eexists _, _. split; [reflexivity|]. by apply body_delivered.
Qed.

Lemma body_case_trace bot c w w' evs :
  body_case bot c w w' evs → trace w' = trace w ++ evs.
Proof. destruct 1; simpl; by rewrite <- ?app_assoc. Qed.

Lemma body_case_sends bot c w w' evs c' t ok :
  body_case bot c w w' evs → SendMessage c' t ok ∈ evs → c' = c.
Proof. destruct 1; intros Hin; set_unfold; naive_solver. Qed.

Lemma body_case_other bot c w w' evs c' :
  body_case bot c w w' evs → c' ≠ c → canais w' !! c' = canais w !! c'.
Proof. destruct 1; intros Hne; simpl; [done| |done]. by rewrite lookup_alter_ne. Qed.

Lemma body_case_dom bot c w w' evs :
  body_case bot c w w' evs → dom (canais w') = dom (canais w).
Proof. destruct 1; simpl; [done| |done]. apply dom_alter_L. Qed.

(** The loop never lets an exception out; it leaves the key set of the table
    alone, sends only to the rows it walks, and touches only their dates. *)
Lemma for_each_canal_summary (bot : Bot) (cs : list (Z * option string)) (w : World) :
  ∃ w' evs,
    for_each cs (enviar_para_canal bot) w = (w', Returned ())
    ∧ trace w' = trace w ++ evs
    ∧ dom (canais w') = dom (canais w)
    ∧ (∀ c t ok, SendMessage c t ok ∈ evs → c ∈ cs.*1)
    ∧ (∀ c, c ∉ cs.*1 → canais w' !! c = canais w !! c).
Proof.
  revert w. induction cs as [|[c x] cs IH]; intros w.
  - exists w, []. simpl. rewrite app_nil_r. set_solver.
  - destruct (enviar_para_canal_case bot c x w) as (w1 & evs1 & Hrun & Hcase).
    destruct (IH w1) as (w' & evs & Hloop & Htr & Hdom & Hsend & Hframe).
    exists w', (evs1 ++ evs). simpl.
    unfold mbind, M_bind at 1. rewrite Hrun, Hloop. split; [done|].
    split; [by rewrite Htr, (body_case_trace _ _ _ _ _ Hcase), app_assoc|].
    split; [by rewrite Hdom, (body_case_dom _ _ _ _ _ Hcase)|].
    split.
    + intros c' t ok [Hin|Hin]%elem_of_app.
      * rewrite (body_case_sends _ _ _ _ _ _ _ _ Hcase Hin). set_solver.
      * specialize (Hsend _ _ _ Hin). set_solver.
    + intros c' Hnot. rewrite Hframe by set_solver.
      apply (body_case_other _ _ _ _ _ _ Hcase). set_solver.
Qed.

Lemma body_case_clock bot c w w' evs :
  body_case bot c w w' evs →
  utcoffset w' = utcoffset w ∧ clock w ≤ clock w' ≤ clock w + 15.
Proof. destruct 1; simpl; lia. Qed.

(** When the loop reaches a row, the host's offset is the one of the start
    of the run and the clock has moved on by the sleeps of the rows before:
    at most 15 seconds each. *)
Lemma turn_clock (bot : Bot) (pre : list (Z * option string)) (w : World) :
  utcoffset (turn bot pre w) = utcoffset w
  ∧ clock w ≤ clock (turn bot pre w) ≤ clock w + 15 * Z.of_nat (length pre).
Proof.
  unfold turn. revert w. induction pre as [|[c x] pre IH]; intros w.
  - simpl. lia.
  - destruct (enviar_para_canal_case bot c x w) as (w1 & evs1 & Hrun & Hcase).
    rewrite length_cons, Nat2Z.inj_succ.
    replace (for_each ((c, x) :: pre) (enviar_para_canal bot) w)
      with (for_each pre (enviar_para_canal bot) w1)
      by (cbn [for_each]; unfold mbind, M_bind at 1; by rewrite Hrun).
    destruct (body_case_clock _ _ _ _ _ Hcase) as [Hoff Hclock].
    destruct (IH w1) as [Hoff' Hclock']. split; [congruence|lia].
Qed.

(** The run seen from one row [(c, x)] of the rows it walks: what happens at
    the row's turn is all that the run sends to [c] or does to its date. *)
Lemma for_each_canal_at (bot : Bot) (pre post : list (Z * option string))
    (c : Z) (x : option string) (w : World) :
  NoDup (pre ++ (c, x) :: post).*1 →
  ∃ w1 evs_c w' evs_pre evs_post,
    body_case bot c (turn bot pre w) w1 evs_c
    ∧ for_each (pre ++ (c, x) :: post) (enviar_para_canal bot) w = (w', Returned ())
    ∧ emitted w w' = evs_pre ++ evs_c ++ evs_post
    ∧ (∀ t ok, SendMessage c t ok ∉ evs_pre)
    ∧ (∀ t ok, SendMessage c t ok ∉ evs_post)
    ∧ canais (turn bot pre w) !! c = canais w !! c
    ∧ canais w' !! c = canais w1 !! c.
Proof.
  rewrite fmap_app, fmap_cons. simpl. intros Hnd.
  apply NoDup_app in Hnd as (_ & Hpre & [Hpost _]%NoDup_cons).
  assert (c ∉ pre.*1) as Hcpre by (intros Hin; apply (Hpre _ Hin); set_solver).
  destruct (for_each_canal_summary bot pre w)
    as (wt & evs_pre & Hrun_pre & Htr_pre & _ & Hsend_pre & Hframe_pre).
  assert (turn bot pre w = wt) as Hturn by (unfold turn; by rewrite Hrun_pre).
  destruct (enviar_para_canal_case bot c x wt) as (w1 & evs_c & Hrun_c & Hcase).
  destruct (for_each_canal_summary bot post w1)
    as (w' & evs_post & Hrun_post & Htr_post & _ & Hsend_post & Hframe_post).
  exists w1, evs_c, w', evs_pre, evs_post. rewrite Hturn.
  split; [done|]. split.
  { rewrite for_each_app, Hrun_pre. simpl.
    unfold mbind, M_bind at 1. by rewrite Hrun_c. }
  split.
  { apply emitted_app.
    by rewrite Htr_post, (body_case_trace _ _ _ _ _ Hcase), Htr_pre, <- !app_assoc. }
  split; [intros t ok Hin; by apply Hcpre, (Hsend_pre _ _ _ Hin)|].
  split; [intros t ok Hin; by apply Hpost, (Hsend_post _ _ _ Hin)|].
  split; [by apply Hframe_pre|by apply Hframe_post].
Qed.

Lemma map_to_list_split_NoDup (t : gmap Z (option string))
    (pre post : list (Z * option string)) (c : Z) (x : option string) :
  map_to_list t = pre ++ (c, x) :: post →
  NoDup (pre ++ (c, x) :: post).*1 ∧ t !! c = Some x.
Proof.
  intros Hrows. split.
  - rewrite <- Hrows. apply NoDup_fst_map_to_list.
  - apply elem_of_map_to_list. rewrite Hrows. set_solver.
Qed.

Lemma stored_lookup (w w' : World) (c : Z) :
  canais w' !! c = canais w !! c → stored w' c = stored w c.
Proof. unfold stored. by intros ->. Qed.

Lemma not_elem_of_app3 (e : Event) (evs1 evs2 evs3 : list Event) :
  e ∉ evs1 → e ∉ evs2 → e ∉ evs3 → e ∉ evs1 ++ evs2 ++ evs3.
Proof. rewrite !elem_of_app. tauto. Qed.

(** The verdict of a whole run on one row of the table: skipped, delivered
    and stamped, or failed and left as it was. *)
Lemma run_at_row (bot : Bot) (w : World) (pre post : list (Z * option string))
    (c : Z) (x : option string) :
  map_to_list (canais w) = pre ++ (c, x) :: post →
  let today := today_of (turn bot pre w) in
  let evs := emitted w (after_run bot w) in
  (stored w c = Some today
   ∧ (∀ t ok, SendMessage c t ok ∉ evs)
   ∧ canais (after_run bot w) !! c = canais w !! c)
  ∨ (stored w c ≠ Some today
     ∧ SendMessage c broadcast_text true ∈ evs
     ∧ (∀ t, SendMessage c t false ∉ evs)
     ∧ canais (after_run bot w) !! c = Some (Some today))
  ∨ (stored w c ≠ Some today
     ∧ SendMessage c broadcast_text false ∈ evs
     ∧ (∀ t, SendMessage c t true ∉ evs)
     ∧ canais (after_run bot w) !! c = canais w !! c).
Proof.
  intros Hrows. simpl.
  destruct (map_to_list_split_NoDup _ _ _ _ _ Hrows) as [Hnd Hrow].
  destruct (for_each_canal_at bot pre post c x w Hnd)
    as (w1 & evs_c & w' & evs_pre & evs_post
        & Hcase & Hrun & Hevs & Hnpre & Hnpost & Hturn & Hlast).
  assert (after_run bot w = w') as ->.
  { unfold after_run, enviar_mensagem_programada, mbind, M_bind, get_canais, gets.
    by rewrite Hrows, Hrun. }
  rewrite Hevs, Hlast, <- (stored_lookup _ _ _ Hturn).
  destruct Hcase as [Hgate|Hgate Hnet|e Hgate Hnet]; simpl.
  - left. split; [done|]. split; [|done]. intros t ok.
    apply (not_elem_of_app3 _ evs_pre [_] evs_post); [done| |done].
    rewrite !elem_of_cons, elem_of_nil. naive_solver.
  - right; left. split; [done|].
    split; [apply elem_of_app; right; apply list_elem_of_further, list_elem_of_here|].
    split.
    + intros t. apply (not_elem_of_app3 _ evs_pre [_; _] evs_post); [done| |done].
      rewrite !elem_of_cons, elem_of_nil. naive_solver.
    + rewrite lookup_alter_eq, Hturn, Hrow. done.
  - right; right. split; [done|].
    split; [apply elem_of_app; right; apply list_elem_of_further, list_elem_of_here|].
    split; [|done].
    intros t. apply (not_elem_of_app3 _ evs_pre [_; _; _; _] evs_post); [done| |done].
    rewrite !elem_of_cons, elem_of_nil. naive_solver.
Qed.

Lemma run_returns (bot : Bot) (w : World) :
  (enviar_mensagem_programada bot w).2 = Returned ().
Proof.
  unfold enviar_mensagem_programada, mbind, M_bind, get_canais, gets.
  destruct (for_each_canal_summary bot (map_to_list (canais w)) w)
    as (w' & evs & -> & _). done.
Qed.

Lemma run_frame (bot : Bot) (w : World) :
  dom (canais (after_run bot w)) = dom (canais w)
  ∧ ∀ c, canais w !! c = None → canais (after_run bot w) !! c = None.
Proof.
  unfold after_run, enviar_mensagem_programada, mbind, M_bind, get_canais, gets.
  destruct (for_each_canal_summary bot (map_to_list (canais w)) w)
    as (w' & evs & -> & _ & Hdom & _ & Hframe). simpl.
  split; [done|]. intros c Hnone. rewrite Hframe; [done|].
  intros ((c' & x) & -> & Hin%elem_of_map_to_list)%list_elem_of_fmap.
  simpl in Hnone. congruence.
Qed.

(** ** The broadcast run *)

(** The scenarios of the specification: on 2024-01-02 both channels are
    served and stamped; a second run on the same day sends nothing and
    writes nothing; when the send to 200 raises, 100 is stamped, 200 is as
    before, and the run returns. *)
Example run_serves_both :
  enviar_mensagem_programada Scenario.delivers Scenario.jan2
  = (mkWorld (<[200 := Some "2024-01-02"]> {[100 := Some "2024-01-02"]})
       1704204010 brasilia_tz
       [Sleep 5; SendMessage 100 broadcast_text true;
        Sleep 5; SendMessage 200 broadcast_text true],
     Returned ()).
Proof. vm_compute. reflexivity. Qed.

Example second_run_sends_nothing :
  let w1 := after_run Scenario.delivers Scenario.jan2 in
  let w2 := after_run Scenario.delivers w1 in
  emitted w1 w2 = [LogInfo "Canal 100 já foi atualizado hoje.";
                   LogInfo "Canal 200 já foi atualizado hoje."]
  ∧ canais w2 = canais w1.
Proof. vm_compute. split; reflexivity. Qed.

Example run_with_200_failing :
  enviar_mensagem_programada (Scenario.fails_for 200) Scenario.jan2
  = (mkWorld (<[200 := None]> {[100 := Some "2024-01-02"]})
       1704204020 brasilia_tz
       [Sleep 5; SendMessage 100 broadcast_text true;
        Sleep 5; SendMessage 200 broadcast_text false;
        LogError "Erro ao enviar para 200: Forbidden"; Sleep 10],
     Returned ()).
Proof. vm_compute. reflexivity. Qed.

(** On a host that keeps São Paulo time the two dates agree. *)
Lemma today_of_brasilia_host (w : World) :
  utcoffset w = brasilia_tz → today_of w = today_in_brasilia w.
Proof. unfold today_of, today_in_brasilia. by intros ->. Qed.

(** C1: the date of the once-per-day gate is the host's local date, not the
    date in the broadcast timezone.  On a host that keeps UTC, the 18:20 and
    the 21:30 firings of 2024-01-01 (São Paulo time) both deliver to channel
    100: at the second one the table holds 2024-01-01, which is the date in
    São Paulo, but the run compares it with 2024-01-02. *)
Theorem C1_two_deliveries_in_one_brasilia_day :
  let w0 := Scenario.utc_host in
  let w1 := after_run Scenario.delivers w0 in
  let w2 := advance 11395 w1 in
  let w3 := after_run Scenario.delivers w2 in
  cron_fires (clock w0) = true
  ∧ cron_fires (clock w2) = true
  ∧ today_in_brasilia w0 = "2024-01-01"
  ∧ today_in_brasilia w2 = "2024-01-01"
  ∧ stored w2 100 = Some (today_in_brasilia w2)
  ∧ today_of w2 = "2024-01-02"
  ∧ emitted w0 w3 = [Sleep 5; SendMessage 100 broadcast_text true;
                     Sleep 5; SendMessage 100 broadcast_text true]
  ∧ stored w3 100 = Some "2024-01-02".
Proof. vm_compute. repeat split; reflexivity. Qed.

(** C2: on a host that keeps UTC the run does not apply the gate to today's
    date in the broadcast timezone.  At the 21:30 firing of 2024-01-01 (São
    Paulo time) channel 100 holds 2024-01-01, the date of that day in São
    Paulo, written by the 18:20 run: the stored date equals today's, it is
    neither absent nor strictly less, and yet the run sends to the channel
    and changes its stored date. *)
Theorem C2_gate_ignores_brasilia_date :
  let w1 := after_run Scenario.delivers Scenario.utc_host in
  let w2 := advance 11395 w1 in
  let w3 := after_run Scenario.delivers w2 in
  cron_fires (clock w2) = true
  ∧ stored w2 100 = Some (today_in_brasilia w2)
  ∧ ¬ eligible_by_spec (stored w2 100) (today_in_brasilia w2)
  ∧ sent_to 100 (emitted w2 w3)
  ∧ stored w3 100 ≠ stored w2 100.
Proof.
  intros w1 w2 w3.
  split; [vm_compute; reflexivity|]. split; [vm_compute; reflexivity|].
  split; [vm_compute; discriminate|]. split.
  - exists broadcast_text, true.
    replace (emitted w2 w3) with [Sleep 5; SendMessage 100 broadcast_text true]
      by (vm_compute; reflexivity).
    apply list_elem_of_further, list_elem_of_here.
  - vm_compute. discriminate.
Qed.

(** X18: the gate as the code has it.  For every row of the table, the run
    sends to the channel if and only if the stored date is absent or differs
    from the date string that [datetime.now()] gives on the host when the
    loop reaches the row; and when the two are equal, nothing is sent to the
    channel and its row is as before. *)
Theorem X18_gate_is_date_inequality (bot : Bot) (w : World)
    (pre post : list (Z * option string)) (c : Z) (x : option string) :
  map_to_list (canais w) = pre ++ (c, x) :: post →
  let today := today_of (turn bot pre w) in
  let evs := emitted w (after_run bot w) in
  (sent_to c evs ↔ stored w c ≠ Some today)
  ∧ (stored w c = Some today →
     ¬ sent_to c evs ∧ canais (after_run bot w) !! c = canais w !! c).
Proof.
  intros Hrows today evs. subst today evs.
  destruct (run_at_row bot w pre post c x Hrows)
    as [(Hgate & Hno & Hsame)|[(Hgate & Hyes & _ & _)|(Hgate & Hyes & _ & _)]].
  - split.
    + split; [intros (t & ok & Hin); by destruct (Hno t ok)|done].
    + intros _. split; [intros (t & ok & Hin); by destruct (Hno t ok)|done].
  - split; [|done]. split; [done|]. intros _. by exists broadcast_text, true.
  - split; [|done]. split; [done|]. intros _. by exists broadcast_text, false.
Qed.

Lemma X18_witness :
  map_to_list (canais Scenario.jan2) = [] ++ (100, Some "2024-01-01") :: [(200, None)]
  ∧ (sent_to 100 (emitted Scenario.jan2 (after_run Scenario.delivers Scenario.jan2))
     ↔ stored Scenario.jan2 100
       ≠ Some (today_of (turn Scenario.delivers [] Scenario.jan2))).
Proof.
  split; [vm_compute; reflexivity|].
  apply (X18_gate_is_date_inequality Scenario.delivers Scenario.jan2
           [] [(200, None)] 100 (Some "2024-01-01")).
  vm_compute; reflexivity.
Defined.

(** C3: when the send to one row's channel fails, the run still returns
    normally, the failed channel's row is as before, and every later row is
    handled as it would be anyway: a send to its channel is issued exactly
    when its stored date differs from the date read at its turn. *)
Theorem C3_failed_send_is_isolated (bot : Bot) (w : World)
    (pre post : list (Z * option string)) (c : Z) (x : option string) :
  map_to_list (canais w) = pre ++ (c, x) :: post →
  (∃ t, SendMessage c t false ∈ emitted w (after_run bot w)) →
  (enviar_mensagem_programada bot w).2 = Returned ()
  ∧ canais (after_run bot w) !! c = canais w !! c
  ∧ ∀ pre' post' c' x',
      post = pre' ++ (c', x') :: post' →
      sent_to c' (emitted w (after_run bot w))
      ↔ stored w c' ≠ Some (today_of (turn bot (pre ++ (c, x) :: pre') w)).
Proof.
  intros Hrows (t & Hfail). split; [apply run_returns|]. split.
  - destruct (run_at_row bot w pre post c x Hrows)
      as [(_ & Hno & _)|[(_ & _ & Hno & _)|(_ & _ & _ & Hsame)]];
      [by destruct (Hno t false)|by destruct (Hno t)|done].
  - intros pre' post' c' x' ->.
    assert (map_to_list (canais w) = (pre ++ (c, x) :: pre') ++ (c', x') :: post')
      as Hrows' by (by rewrite Hrows, <- app_assoc).
    destruct (run_at_row bot w _ _ c' x' Hrows')
      as [(Hgate & Hno & _)|[(Hgate & Hyes & _)|(Hgate & Hyes & _)]].
    + split; [intros (t' & ok & Hin); by destruct (Hno t' ok)|done].
    + split; [done|]. intros _. by exists broadcast_text, true.
    + split; [done|]. intros _. by exists broadcast_text, false.
Qed.

Lemma C3_witness :
  let bot := Scenario.fails_for 100 in
  let w := Scenario.jan2 in
  (enviar_mensagem_programada bot w).2 = Returned ()
  ∧ canais (after_run bot w) !! 100 = canais w !! 100
  ∧ (sent_to 200 (emitted w (after_run bot w))
     ↔ stored w 200 ≠ Some (today_of (turn bot ([] ++ (100, Some "2024-01-01") :: []) w))).
Proof.
  intros bot w.
  destruct (C3_failed_send_is_isolated bot w [] [(200, None)] 100 (Some "2024-01-01"))
    as (Hret & Hsame & Hnext).
  - vm_compute; reflexivity.
  - exists broadcast_text.
    replace (emitted _ _) with
      [Sleep 5; SendMessage 100 broadcast_text false;
       LogError "Erro ao enviar para 100: Forbidden"; Sleep 10;
       Sleep 5; SendMessage 200 broadcast_text true]
      by (vm_compute; reflexivity).
    apply list_elem_of_further, list_elem_of_here.
  - split; [exact Hret|]. split; [exact Hsame|].
    apply (Hnext [] [] 200 None). reflexivity.
Defined.

(** X19: the date a run writes.  A row whose stored date is absent or
    differs from the host's date (read when the loop reaches the row, before
    the pacing sleep) and whose send is delivered holds that date after the
    run. *)
Theorem X19_delivered_row_holds_turn_date (bot : Bot) (w : World)
    (pre post : list (Z * option string)) (c : Z) (x : option string) :
  map_to_list (canais w) = pre ++ (c, x) :: post →
  let today := today_of (turn bot pre w) in
  stored w c ≠ Some today →
  (∃ t, SendMessage c t true ∈ emitted w (after_run bot w)) →
  stored (after_run bot w) c = Some today.
Proof.
  intros Hrows today Hgate (t & Hok). subst today. unfold stored at 1.
  destruct (run_at_row bot w pre post c x Hrows)
    as [(Heq & _)|[(_ & _ & _ & ->)|(_ & _ & Hno & _)]];
    [done|done|by destruct (Hno t)].
Qed.

Lemma X19_witness :
  let bot := Scenario.delivers in
  let w := Scenario.jan2 in
  stored w 200 = None
  ∧ stored (after_run bot w) 200 = Some "2024-01-02".
Proof.
  intros bot w. split; [reflexivity|].
  apply (X19_delivered_row_holds_turn_date bot w
           [(100, Some "2024-01-01")] [] 200 None).
  - vm_compute; reflexivity.
  - vm_compute. discriminate.
  - exists broadcast_text.
    replace (emitted _ _) with
      [Sleep 5; SendMessage 100 broadcast_text true;
       Sleep 5; SendMessage 200 broadcast_text true]
      by (vm_compute; reflexivity).
    do 3 apply list_elem_of_further. apply list_elem_of_here.
Defined.

(** C4: on a host that keeps UTC a delivered row is not stamped with
    today's date in the broadcast timezone.  At the 21:30 firing of
    2024-01-01 (São Paulo time) channel 100 has no date and its send is
    delivered; after the run the row holds 2024-01-02, while the date in São
    Paulo, before and after the run, is 2024-01-01. *)
Theorem C4_stamp_is_not_brasilia_date :
  let w := Scenario.utc_host_2130 in
  let w' := after_run Scenario.delivers w in
  cron_fires (clock w) = true
  ∧ stored w 100 = None
  ∧ emitted w w' = [Sleep 5; SendMessage 100 broadcast_text true]
  ∧ today_in_brasilia w = "2024-01-01"
  ∧ today_in_brasilia w' = "2024-01-01"
  ∧ stored w' 100 = Some "2024-01-02".
Proof. vm_compute. repeat split; reflexivity. Qed.

(** C8: a run leaves the set of registered channels as it was, and a row
    that differs after the run is a row whose send was delivered in that
    run and that now holds a date. *)
Theorem C8_run_only_stamps_delivered_rows (bot : Bot) (w : World) :
  dom (canais (after_run bot w)) = dom (canais w)
  ∧ ∀ c, canais (after_run bot w) !! c ≠ canais w !! c →
         SendMessage c broadcast_text true ∈ emitted w (after_run bot w)
         ∧ ∃ date, canais (after_run bot w) !! c = Some (Some date).
Proof.
  destruct (run_frame bot w) as [Hdom Hframe]. split; [done|].
  intros c Hdiff. destruct (canais w !! c) as [x|] eqn:Hrow.
  - apply elem_of_map_to_list, list_elem_of_split in Hrow as (pre & post & Hrows).
    destruct (run_at_row bot w pre post c x Hrows)
      as [(_ & _ & Hsame)|[(_ & Hyes & _ & Hnew)|(_ & _ & _ & Hsame)]].
    + destruct Hdiff. by rewrite Hsame, (proj2 (map_to_list_split_NoDup _ _ _ _ _ Hrows)).
    + split; [done|]. by eexists.
    + destruct Hdiff. by rewrite Hsame, (proj2 (map_to_list_split_NoDup _ _ _ _ _ Hrows)).
  - destruct Hdiff. by apply Hframe.
Qed.

Lemma C8_witness :
  let bot := Scenario.fails_for 200 in
  let w := Scenario.jan2 in
  dom (canais (after_run bot w)) = dom (canais w)
  ∧ SendMessage 100 broadcast_text true ∈ emitted w (after_run bot w).
Proof.
  intros bot w. destruct (C8_run_only_stamps_delivered_rows bot w) as [Hdom Hrows].
  split; [exact Hdom|]. apply (Hrows 100). vm_compute. discriminate.
Defined.

(** ** The welcome flow and registration *)

Lemma send_welcome_message_failed (update : Update) (context : Context)
    (chat_id : Z) (w : World) (e : Exn) :
  send_result (bot context) w chat_id welcome_text = Some e →
  send_welcome_message update context chat_id w
  = (emit (LogError ("Erro ao enviar mensagem de boas-vindas para o canal "
                     +:+ pretty chat_id +:+ ": " +:+ exn_str e))
       (emit (SendMessage chat_id welcome_text false) w),
     Returned ()).
Proof.
  intros Hnet.
  unfold send_welcome_message, try_except, mbind, M_bind, send_message.
  by rewrite Hnet.
Qed.

Lemma send_welcome_message_delivered (update : Update) (context : Context)
    (chat_id : Z) (w : World) :
  send_result (bot context) w chat_id welcome_text = None →
  send_welcome_message update context chat_id w
  = (emit (LogInfo ("Canal " +:+ pretty chat_id +:+ " registrado com sucesso!"))
       (set_canais (insert_or_ignore chat_id)
          (emit (SendMessage chat_id welcome_text true) w)),
     Returned ()).
Proof.
  intros Hnet.
  unfold send_welcome_message, try_except, mbind, M_bind, send_message.
  by rewrite Hnet.
Qed.

(** C5: when the welcome send raises, the flow returns normally after one
    send and one error log line, and the table is as before: no second
    send, no registration. *)
Theorem C5_welcome_failure_skips_registration (update : Update)
    (context : Context) (chat_id : Z) (w : World) (e : Exn) :
  send_result (bot context) w chat_id welcome_text = Some e →
  let w' := (send_welcome_message update context chat_id w).1 in
  (send_welcome_message update context chat_id w).2 = Returned ()
  ∧ canais w' = canais w
  ∧ emitted w w'
    = [SendMessage chat_id welcome_text false;
       LogError ("Erro ao enviar mensagem de boas-vindas para o canal "
                 +:+ pretty chat_id +:+ ": " +:+ exn_str e)].
Proof.
  intros Hnet. simpl. rewrite (send_welcome_message_failed _ _ _ _ _ Hnet). simpl.
  split; [done|]. split; [done|].
  apply emitted_app. simpl. by rewrite <- app_assoc.
Qed.

Lemma C5_witness :
  let context := mkContext (Scenario.fails_for (-1001)) in
  let w' := (send_welcome_message Scenario.promoted context (-1001) Scenario.jan2).1 in
  canais w' = canais Scenario.jan2
  ∧ emitted Scenario.jan2 w'
    = [SendMessage (-1001) welcome_text false;
       LogError "Erro ao enviar mensagem de boas-vindas para o canal -1001: Forbidden"].
Proof.
  intros context w'.
  destruct (C5_welcome_failure_skips_registration Scenario.promoted context (-1001)
              Scenario.jan2 (Exception "Forbidden"))
    as (_ & Hsame & Hevs).
  - vm_compute; reflexivity.
  - split; [exact Hsame|exact Hevs].
Defined.

(** The handler as it is: it returns without doing anything when the
    update's member is another user or the new status is not an
    administrator's, and raises, before any send or registration, in every
    other case; the world is never changed. *)
Lemma on_chat_member_update_cases (update : Update) (context : Context) (w : World) :
  on_chat_member_update update context w = (w, Returned ())
  ∨ ∃ e, on_chat_member_update update context w = (w, Raised e).
Proof.
  unfold on_chat_member_update.
  destruct (chat_member update) as [new_member|]; [|right; by eexists].
  repeat case_bool_decide; [right; by eexists|by left|by left].
Qed.

(** C6: an update that makes the bot an administrator or creator of a chat
    does not lead to a welcome send or to a registration.  When the update
    carries the change in [chat_member], the handler gets as far as
    [update.chat.id] and raises there; when it carries no [chat_member] (the
    bot's own promotion arrives in [my_chat_member]) it raises at once.  In
    both cases the world is as before: no send, no row. *)
Theorem C6_promotion_raises_before_welcome (update : Update) (context : Context)
    (w : World) :
  (chat_member update = None
   ∨ ∃ new_member, chat_member update = Some new_member
       ∧ user_id (new_chat_member new_member) = bot_id (bot context)
       ∧ is_admin_status (status (new_chat_member new_member))) →
  ∃ e, on_chat_member_update update context w = (w, Raised e).
Proof.
  unfold on_chat_member_update, is_admin_status.
  intros [-> | (new_member & -> & Hwho & Hstatus)]; [by eexists|].
  rewrite !bool_decide_eq_true_2 by done. by eexists.
Qed.

Lemma C6_witness :
  let context := mkContext Scenario.delivers in
  (∃ e, on_chat_member_update Scenario.promoted context Scenario.jan2
        = (Scenario.jan2, Raised e))
  ∧ (∃ e, on_chat_member_update Scenario.promoted_in_chat_member context Scenario.jan2
          = (Scenario.jan2, Raised e)).
Proof.
  intros context. split.
  - apply C6_promotion_raises_before_welcome. left. reflexivity.
  - apply C6_promotion_raises_before_welcome. right.
    eexists. split; [reflexivity|]. split; [reflexivity|].
    apply list_elem_of_here.
Defined.

(** An update about another user is ignored. *)
Example other_user_is_ignored :
  on_chat_member_update Scenario.other_promoted (mkContext Scenario.delivers) Scenario.jan2
  = (Scenario.jan2, Returned ()).
Proof. reflexivity. Qed.

(** The same promotion as the process sees it: the application logs the
    exception of the handler, nothing is sent, and the table is as before. *)
Example promotion_through_the_application :
  handle Scenario.delivers (ChatMemberUpdate Scenario.promoted) Scenario.jan2
  = (emit (LogError "No error handlers are registered, logging exception.")
       Scenario.jan2,
     Returned ()).
Proof. reflexivity. Qed.

Lemma filter_key_absent (l : list (Z * option string)) (c : Z) :
  c ∉ l.*1 → filter (λ row, row.1 = c) l = [].
Proof.
  induction l as [|[k v] l IH]; [done|].
  rewrite fmap_cons, not_elem_of_cons. simpl. intros [Hne Hnot].
  rewrite filter_cons_False by (simpl; congruence). by apply IH.
Qed.

Lemma filter_key_NoDup (l : list (Z * option string)) (c : Z) (x : option string) :
  NoDup l.*1 → (c, x) ∈ l → filter (λ row, row.1 = c) l = [(c, x)].
Proof.
  induction l as [|[k v] l IH]; [by intros _ ?%elem_of_nil|].
  rewrite fmap_cons, NoDup_cons. simpl. intros [Hk Hnd] [[= -> ->]|Hin]%elem_of_cons.
  - rewrite filter_cons_True by done. by rewrite filter_key_absent.
  - assert (k ≠ c) as Hne.
    { intros ->. apply Hk, list_elem_of_fmap. by exists (c, x). }
    rewrite filter_cons_False by done. by apply IH.
Qed.

Lemma rows_of_lookup (w : World) (c : Z) (x : option string) :
  canais w !! c = Some x → rows_of c w = [(c, x)].
Proof.
  intros Hrow. apply filter_key_NoDup.
  - apply NoDup_fst_map_to_list.
  - by apply elem_of_map_to_list.
Qed.

Lemma insert_or_ignore_lookup (c : Z) (t : gmap Z (option string)) :
  insert_or_ignore c t !! c = Some (default None (t !! c)).
Proof.
  unfold insert_or_ignore. destruct (t !! c) as [x|] eqn:Hrow; simpl.
  - done.
  - apply lookup_insert_eq.
Qed.

Lemma insert_or_ignore_known (c : Z) (t : gmap Z (option string)) :
  is_Some (t !! c) → insert_or_ignore c t = t.
Proof. intros [x Hrow]. unfold insert_or_ignore. by rewrite Hrow. Qed.

(** C7: registering a channel twice is the same as registering it once and
    leaves exactly one row for it; [add_canal] never raises; and on a
    channel that is already in the table it changes nothing, the stored
    date included. *)
Theorem C7_add_canal_idempotent (chat_id : Z) (w : World) :
  (add_canal chat_id;; add_canal chat_id) w = add_canal chat_id w
  ∧ (add_canal chat_id w).2 = Returned ()
  ∧ length (rows_of chat_id ((add_canal chat_id;; add_canal chat_id) w).1) = 1%nat
  ∧ (is_Some (canais w !! chat_id) → add_canal chat_id w = (w, Returned ())).
Proof.
  unfold add_canal, modify, mbind, M_bind, set_canais. simpl.
  assert (insert_or_ignore chat_id (insert_or_ignore chat_id (canais w))
          = insert_or_ignore chat_id (canais w)) as Hidem.
  { apply insert_or_ignore_known. rewrite insert_or_ignore_lookup. by eexists. }
  rewrite Hidem. split; [done|]. split; [done|]. split.
  - erewrite rows_of_lookup; [done|]. simpl. apply insert_or_ignore_lookup.
  - intros Hknown. rewrite insert_or_ignore_known by done. by rewrite World_eta.
Qed.

Lemma C7_witness :
  is_Some (canais Scenario.jan2 !! 100)
  ∧ add_canal 100 Scenario.jan2 = (Scenario.jan2, Returned ())
  ∧ length (rows_of 300 ((add_canal 300;; add_canal 300) Scenario.jan2).1) = 1%nat.
Proof.
  destruct (C7_add_canal_idempotent 100 Scenario.jan2) as (_ & _ & _ & Hnoop).
  destruct (C7_add_canal_idempotent 300 Scenario.jan2) as (_ & _ & Hone & _).
  assert (is_Some (canais Scenario.jan2 !! 100)) as Hknown
    by (exists (Some "2024-01-01"); vm_compute; reflexivity).
  split; [exact Hknown|]. split; [exact (Hnoop Hknown)|exact Hone].
Defined.

(** C9: [update_last_interaction_date] on a channel that has no row returns
    normally and leaves the world as it was. *)
Theorem C9_update_unknown_channel_is_noop (canal_id : Z) (date : string) (w : World) :
  canais w !! canal_id = None →
  update_last_interaction_date canal_id date w = (w, Returned ()).
Proof.
  intros Hnone. unfold update_last_interaction_date, modify, set_canais.
  replace (alter (λ _, Some date) canal_id (canais w)) with (canais w).
  - by rewrite World_eta.
  - apply map_eq. intros c. rewrite lookup_alter. case_decide; [subst c|done].
    by rewrite Hnone.
Qed.

Lemma C9_witness :
  canais Scenario.jan2 !! 300 = None
  ∧ update_last_interaction_date 300 "2024-01-02" Scenario.jan2
    = (Scenario.jan2, Returned ()).
Proof.
  assert (canais Scenario.jan2 !! 300 = None) as Hnone by (vm_compute; reflexivity).
  split; [exact Hnone|].
  exact (C9_update_unknown_channel_is_noop 300 "2024-01-02" Scenario.jan2 Hnone).
Defined.

(** ** Configuration *)

(** C10: two processes whose environments differ only in the nonzero value
    of ADMIN_ID do the same on every sequence of inputs, from every world:
    same outcome, same table, same events. *)
Theorem C10_admin_id_is_inert (token : option string) (admin1 admin2 : Z)
    (connect : string → Bot) (inputs : list Input) (w : World) :
  admin1 ≠ 0 → admin2 ≠ 0 →
  main (mkEnviron token (Some admin1)) connect inputs w
  = main (mkEnviron token (Some admin2)) connect inputs w.
Proof.
  intros Hne1 Hne2. unfold main, load_config. simpl.
  destruct token as [tok|]; [|done].
  rewrite (bool_decide_eq_false_2 (admin1 = 0) Hne1).
  rewrite (bool_decide_eq_false_2 (admin2 = 0) Hne2).
  by destruct (bool_decide (tok = "")).
Qed.

Lemma C10_witness :
  let inputs := [ChatMemberUpdate Scenario.promoted; Elapse 60; CronFire] in
  main (mkEnviron (Some "123:abc") (Some 11)) (λ _, Scenario.delivers) inputs Scenario.jan2
  = main (mkEnviron (Some "123:abc") (Some 22)) (λ _, Scenario.delivers) inputs Scenario.jan2.
Proof.
  intros inputs.
  apply (C10_admin_id_is_inert (Some "123:abc") 11 22); discriminate.
Defined.

(** ** Further properties of the persistence functions *)

Lemma stored_get (c : Z) (w : World) :
  get_last_interaction_date c w = (w, Returned (stored w c)).
Proof. reflexivity. Qed.

(** X1: reading a channel's date right after writing it gives the written
    date when the channel has a row and nothing when it has none; the dates
    read for all other channels are as before the write. *)
Theorem X1_update_then_get (c : Z) (date : string) (w : World) :
  ((update_last_interaction_date c date;; get_last_interaction_date c) w).2
  = Returned (match canais w !! c with Some _ => Some date | None => None end)
  ∧ ∀ c', c' ≠ c →
      ((update_last_interaction_date c date;; get_last_interaction_date c') w).2
      = (get_last_interaction_date c' w).2.
Proof.
  unfold update_last_interaction_date, get_last_interaction_date, modify, gets,
    mbind, M_bind, set_canais. simpl. split.
  - rewrite lookup_alter_eq. by destruct (canais w !! c).
  - intros c' Hne. by rewrite lookup_alter_ne.
Qed.

Lemma X1_witness :
  ((update_last_interaction_date 100 "2024-02-03";; get_last_interaction_date 200)
     Scenario.jan2).2
  = (get_last_interaction_date 200 Scenario.jan2).2.
Proof.
  destruct (X1_update_then_get 100 "2024-02-03" Scenario.jan2) as [_ Hother].
  apply Hother. discriminate.
Defined.

(** X2: a date update never adds or removes a row, whatever the channel,
    and of two updates of one channel the later one wins. *)
Theorem X2_update_keeps_rows_last_wins (c : Z) (d1 d2 : string) (w : World) :
  dom (canais (update_last_interaction_date c d1 w).1) = dom (canais w)
  ∧ (update_last_interaction_date c d1;; update_last_interaction_date c d2) w
    = update_last_interaction_date c d2 w.
Proof.
  unfold update_last_interaction_date, modify, mbind, M_bind, set_canais. simpl.
  split; [apply dom_alter_L|].
  do 2 f_equal. apply map_eq. intros c'.
  destruct (decide (c' = c)) as [->|Hne].
  - rewrite !lookup_alter_eq. by destruct (canais w !! c).
  - by rewrite !lookup_alter_ne.
Qed.

(** X3: registering a channel changes no date that can be read, the
    channel's own included (a new row has none), and makes the channel part
    of the table: the key set is the old one with the channel added. *)
Theorem X3_add_canal_keeps_dates (chat_id : Z) (w : World) :
  (∀ c, ((add_canal chat_id;; get_last_interaction_date c) w).2
        = (get_last_interaction_date c w).2)
  ∧ dom (canais (add_canal chat_id w).1) = {[chat_id]} ∪ dom (canais w).
Proof.
  unfold add_canal, get_last_interaction_date, modify, gets, mbind, M_bind,
    set_canais, insert_or_ignore. simpl.
  destruct (canais w !! chat_id) as [x|] eqn:Hrow.
  - split; [done|]. apply elem_of_dom_2 in Hrow. set_solver.
  - split; [|apply dom_insert_L].
    intros c. destruct (decide (c = chat_id)) as [->|Hne].
    + by rewrite lookup_insert_eq, Hrow.
    + by rewrite lookup_insert_ne.
Qed.

Lemma insert_or_ignore_lookup_ne (c c' : Z) (t : gmap Z (option string)) :
  c' ≠ c → insert_or_ignore c t !! c' = t !! c'.
Proof.
  intros Hne. unfold insert_or_ignore.
  destruct (t !! c); [done|]. by rewrite lookup_insert_ne.
Qed.

(** X4: registrations commute: two channels registered in either order give
    the same table. *)
Theorem X4_add_canal_commutes (a b : Z) (w : World) :
  (add_canal a;; add_canal b) w = (add_canal b;; add_canal a) w.
Proof.
  unfold add_canal, modify, mbind, M_bind, set_canais. simpl.
  do 2 f_equal. apply map_eq. intros c.
  destruct (decide (a = b)) as [->|Hne]; [done|].
  destruct (decide (c = a)) as [->|Hca]; [|destruct (decide (c = b)) as [->|Hcb]].
  - rewrite insert_or_ignore_lookup_ne, !insert_or_ignore_lookup by done.
    by rewrite insert_or_ignore_lookup_ne by done.
  - rewrite insert_or_ignore_lookup, !insert_or_ignore_lookup_ne by done.
    by rewrite insert_or_ignore_lookup.
  - by rewrite !insert_or_ignore_lookup_ne by done.
Qed.

(** ** Further properties of the broadcast run *)

Lemma after_run_turn (bot : Bot) (w : World) :
  after_run bot w = turn bot (map_to_list (canais w)) w.
Proof. reflexivity. Qed.

(** X5: whatever the transport does, a run returns normally, leaves the
    host's offset alone and moves the clock forward by at most 15 seconds
    for each row of the table. *)
Theorem X5_run_returns_in_bounded_time (bot : Bot) (w : World) :
  (enviar_mensagem_programada bot w).2 = Returned ()
  ∧ utcoffset (after_run bot w) = utcoffset w
  ∧ clock w ≤ clock (after_run bot w) ≤ clock w + 15 * Z.of_nat (size (canais w)).
Proof.
  split; [apply run_returns|]. rewrite after_run_turn.
  rewrite <- (length_map_to_list (canais w)). apply turn_clock.
Qed.

(** X6: on an empty table a run does nothing at all: no event, no sleep,
    the world is the one it started from. *)
Theorem X6_run_on_empty_table (bot : Bot) (w : World) :
  canais w = ∅ → enviar_mensagem_programada bot w = (w, Returned ()).
Proof.
  intros Hempty.
  unfold enviar_mensagem_programada, mbind, M_bind, get_canais, gets.
  by rewrite Hempty, map_to_list_empty.
Qed.

Lemma X6_witness :
  enviar_mensagem_programada Scenario.delivers (mkWorld ∅ 1704204000 0 [])
  = (mkWorld ∅ 1704204000 0 [], Returned ()).
Proof. apply X6_run_on_empty_table. reflexivity. Defined.




Lemma paced_app (evs1 evs2 : list Event) :
  paced evs1 → paced evs2 → paced (evs1 ++ evs2).
Proof.
  intros H1 H2 i c t ok Hi.
  destruct (decide (i < length evs1)%nat) as [Hlt|Hge].
  - rewrite lookup_app_l in Hi by done.
    destruct (H1 i c t ok Hi) as (j & -> & Hj).
    exists j. split; [done|]. rewrite lookup_app_l by lia. done.
  - rewrite lookup_app_r in Hi by lia.
    destruct (H2 _ c t ok Hi) as (j & Hij & Hj).
    exists (length evs1 + j)%nat. split; [lia|].
    rewrite lookup_app_r by lia. by replace (length evs1 + j - length evs1)%nat with j by lia.
Qed.

Lemma body_case_paced bot c w w' evs : body_case bot c w w' evs → paced evs.
Proof.
  destruct 1; intros i c' t ok Hi.
  - destruct i as [|i]; simpl in Hi; [done|by destruct i].
  - destruct i as [|[|i]]; simpl in Hi; [done| |by destruct i].
    by exists 0%nat.
  - destruct i as [|[|[|[|i]]]]; simpl in Hi; try done.
    by exists 0%nat.
Qed.

(** What holds of the events of each pass and is kept by concatenation holds
    of the events of the whole loop. *)
Lemma for_each_canal_events (P : list Event → Prop) (bot : Bot)
    (cs : list (Z * option string)) (w : World) :
  P [] →
  (∀ evs1 evs2, P evs1 → P evs2 → P (evs1 ++ evs2)) →
  (∀ c w0 w1 evs, body_case bot c w0 w1 evs → P evs) →
  ∃ w' evs,
    for_each cs (enviar_para_canal bot) w = (w', Returned ())
    ∧ trace w' = trace w ++ evs ∧ P evs.
Proof.
  intros Hnil Happ Hbody. revert w. induction cs as [|[c x] cs IH]; intros w.
  - exists w, []. simpl. by rewrite app_nil_r.
  - destruct (enviar_para_canal_case bot c x w) as (w1 & evs1 & Hrun & Hcase).
    destruct (IH w1) as (w' & evs & Hloop & Htr & HP).
    exists w', (evs1 ++ evs). cbn [for_each]. unfold mbind, M_bind at 1.
    rewrite Hrun, Hloop. split; [done|]. split.
    + by rewrite Htr, (body_case_trace _ _ _ _ _ Hcase), app_assoc.
    + apply Happ; [by eapply Hbody|done].
Qed.

(** X8: in a run every send, the first one included, comes right after a
    five-second sleep. *)
Theorem X8_every_send_follows_a_sleep (bot : Bot) (w : World)
    (i : nat) (c : Z) (text : string) (ok : bool) :
  emitted w (after_run bot w) !! i = Some (SendMessage c text ok) →
  ∃ j : nat, i = S j ∧ emitted w (after_run bot w) !! j = Some (Sleep 5).
Proof.
  destruct (for_each_canal_events paced bot (map_to_list (canais w)) w)
    as (w' & evs & Hloop & Htr & Hpaced).
  - by intros j ????.
  - apply paced_app.
  - intros ????. apply body_case_paced.
  - assert (after_run bot w = w') as ->.
    { unfold after_run, enviar_mensagem_programada, mbind, M_bind, get_canais, gets.
      by rewrite Hloop. }
    rewrite (emitted_app _ _ _ Htr). apply Hpaced.
Qed.

Lemma X8_witness :
  emitted Scenario.jan2 (after_run Scenario.delivers Scenario.jan2) !! 1%nat
  = Some (SendMessage 100 broadcast_text true)
  ∧ ∃ j : nat, 1%nat = S j
      ∧ emitted Scenario.jan2 (after_run Scenario.delivers Scenario.jan2) !! j
        = Some (Sleep 5).
Proof.
  assert (emitted Scenario.jan2 (after_run Scenario.delivers Scenario.jan2) !! 1%nat
          = Some (SendMessage 100 broadcast_text true)) as Hsend
    by (vm_compute; reflexivity).
  split; [exact Hsend|].
  exact (X8_every_send_follows_a_sleep _ _ _ _ _ _ Hsend).
Defined.

Lemma sends_to_app (c : Z) (evs1 evs2 : list Event) :
  sends_to c (evs1 ++ evs2) = (sends_to c evs1 + sends_to c evs2)%nat.
Proof. unfold sends_to. by rewrite filter_app, length_app. Qed.

Lemma sends_to_none (c : Z) (evs : list Event) :
  (∀ t ok, SendMessage c t ok ∉ evs) → sends_to c evs = 0%nat.
Proof.
  unfold sends_to. induction evs as [|e evs IH]; intros Hno; [done|].
  rewrite filter_cons_False.
  - apply IH. intros t ok Hin. apply (Hno t ok). by apply list_elem_of_further.
  - destruct e as [c' t ok| | | | | |]; simpl; try done.
    case_bool_decide as Hc; [subst c'|done].
    destruct (Hno t ok). apply list_elem_of_here.
Qed.

Lemma sends_to_singleton (c : Z) (e : Event) : (sends_to c [e] ≤ 1)%nat.
Proof. unfold sends_to. apply (length_filter _ [e]). Qed.

Lemma body_case_sends_to bot c w w' evs c' :
  body_case bot c w w' evs → (sends_to c' evs ≤ 1)%nat.
Proof.
  destruct 1.
  - rewrite sends_to_none; [lia|]. intros t ok Hin. set_unfold. naive_solver.
  - change (sends_to c' ([Sleep 5] ++ [SendMessage c broadcast_text true]) ≤ 1)%nat.
    rewrite sends_to_app, (sends_to_none _ [Sleep 5]).
    + apply sends_to_singleton.
    + intros t ok Hin. set_unfold. naive_solver.
  - match goal with |- (sends_to _ [?a; ?b; ?c0; ?d] ≤ 1)%nat =>
      change (sends_to c' ([a] ++ [b] ++ [c0; d]) ≤ 1)%nat end.
    rewrite !sends_to_app, (sends_to_none _ [Sleep 5]), (sends_to_none _ [_; Sleep 10]).
    + pose proof (sends_to_singleton c' (SendMessage c broadcast_text false)). lia.
    + intros t ok Hin. set_unfold. naive_solver.
    + intros t ok Hin. set_unfold. naive_solver.
Qed.

(** X9: a run calls [send_message] at most once for any channel, so a
    failed send is not tried again in the same run; for a channel that has
    no row it calls it not at all; and whatever it sends is the broadcast
    text. *)
Theorem X9_at_most_one_send_per_channel (bot : Bot) (w : World) (c : Z) :
  (sends_to c (emitted w (after_run bot w)) ≤ 1)%nat
  ∧ (canais w !! c = None → sends_to c (emitted w (after_run bot w)) = 0%nat)
  ∧ ∀ text ok, SendMessage c text ok ∈ emitted w (after_run bot w) →
               text = broadcast_text.
Proof.
  assert (canais w !! c = None → sends_to c (emitted w (after_run bot w)) = 0%nat)
    as Hunknown.
  { intros Hnone.
    destruct (for_each_canal_summary bot (map_to_list (canais w)) w)
      as (w' & evs & Hloop & Htr & _ & Hsend & _).
    assert (after_run bot w = w') as ->.
    { unfold after_run, enviar_mensagem_programada, mbind, M_bind, get_canais, gets.
      by rewrite Hloop. }
    rewrite (emitted_app _ _ _ Htr). apply sends_to_none. intros t ok Hin.
    apply Hsend, list_elem_of_fmap in Hin as ((c' & x) & -> & Hin%elem_of_map_to_list).
    simpl in Hnone. congruence. }
  split; [|split; [done|]].
  - destruct (canais w !! c) as [x|] eqn:Hrow; [|rewrite Hunknown by done; lia].
    apply elem_of_map_to_list, list_elem_of_split in Hrow as (pre & post & Hrows).
    destruct (map_to_list_split_NoDup _ _ _ _ _ Hrows) as [Hnd _].
    destruct (for_each_canal_at bot pre post c x w Hnd)
      as (w1 & evs_c & w' & evs_pre & evs_post
          & Hcase & Hrun & Hevs & Hnpre & Hnpost & _ & _).
    assert (after_run bot w = w') as ->.
    { unfold after_run, enviar_mensagem_programada, mbind, M_bind, get_canais, gets.
      by rewrite Hrows, Hrun. }
    rewrite Hevs, !sends_to_app, (sends_to_none _ _ Hnpre), (sends_to_none _ _ Hnpost).
    pose proof (body_case_sends_to _ _ _ _ _ c Hcase). lia.
  - destruct (for_each_canal_events
                (λ evs, ∀ c t ok, SendMessage c t ok ∈ evs → t = broadcast_text)
                bot (map_to_list (canais w)) w)
      as (w' & evs & Hloop & Htr & Htext).
    + by intros ??? ?%elem_of_nil.
    + intros evs1 evs2 H1 H2 c' t ok [Hin|Hin]%elem_of_app; eauto.
    + intros c' w0 w1 evs Hcase c'' t ok Hin.
      destruct Hcase; set_unfold; naive_solver.
    + assert (after_run bot w = w') as ->.
      { unfold after_run, enviar_mensagem_programada, mbind, M_bind, get_canais, gets.
        by rewrite Hloop. }
      rewrite (emitted_app _ _ _ Htr). intros text ok Hin. by eapply Htext.
Qed.

Lemma X9_witness :
  canais Scenario.jan2 !! 300 = None
  ∧ sends_to 300 (emitted Scenario.jan2 (after_run (Scenario.fails_for 200) Scenario.jan2))
    = 0%nat
  ∧ (sends_to 200 (emitted Scenario.jan2 (after_run (Scenario.fails_for 200) Scenario.jan2))
     ≤ 1)%nat.
Proof.
  assert (canais Scenario.jan2 !! 300 = None) as Hnone by (vm_compute; reflexivity).
  destruct (X9_at_most_one_send_per_channel (Scenario.fails_for 200) Scenario.jan2 300)
    as (_ & Hzero & _).
  destruct (X9_at_most_one_send_per_channel (Scenario.fails_for 200) Scenario.jan2 200)
    as (Hone & _).
  split; [exact Hnone|]. split; [exact (Hzero Hnone)|exact Hone].
Defined.

(** X10: a registered channel that was never served (its row has no date)
    is sent to in every run, whatever the clock and the host's offset. *)
Theorem X10_unserved_channel_is_attempted (bot : Bot) (w : World) (c : Z) :
  canais w !! c = Some None →
  sent_to c (emitted w (after_run bot w)).
Proof.
  intros Hrow.
  assert (stored w c = None) as Hstored by (unfold stored; by rewrite Hrow).
  apply elem_of_map_to_list, list_elem_of_split in Hrow as (pre & post & Hrows).
  destruct (run_at_row bot w pre post c None Hrows)
    as [(Hgate & _)|[(_ & Hyes & _)|(_ & Hyes & _)]].
  - congruence.
  - by exists broadcast_text, true.
  - by exists broadcast_text, false.
Qed.

Lemma X10_witness :
  canais Scenario.jan2 !! 200 = Some None
  ∧ sent_to 200 (emitted Scenario.jan2 (after_run (Scenario.fails_for 200) Scenario.jan2)).
Proof.
  assert (canais Scenario.jan2 !! 200 = Some None) as Hrow by (vm_compute; reflexivity).
  split; [exact Hrow|].
  exact (X10_unserved_channel_is_attempted _ _ _ Hrow).
Defined.

(** ** Further properties of the handlers and of the process *)

Lemma stored_insert_or_ignore (chat_id c : Z) (w : World) :
  stored (set_canais (insert_or_ignore chat_id) w) c = stored w c.
Proof.
  unfold stored. simpl. destruct (decide (c = chat_id)) as [->|Hne].
  - rewrite insert_or_ignore_lookup. by destruct (canais w !! chat_id).
  - by rewrite insert_or_ignore_lookup_ne.
Qed.

Lemma dom_insert_or_ignore (chat_id : Z) (t : gmap Z (option string)) :
  dom (insert_or_ignore chat_id t) = {[chat_id]} ∪ dom t.
Proof.
  unfold insert_or_ignore. destruct (t !! chat_id) as [x|] eqn:Hrow.
  - apply elem_of_dom_2 in Hrow. set_solver.
  - apply dom_insert_L.
Qed.

(** X11: the chat-member handler never changes the world, whether it
    returns or raises: no stored date changes, the clock does not move, no
    row is removed or added, and no message is sent. *)
Theorem X11_watcher_keeps_dates (update : Update) (context : Context) (w : World) :
  let w' := (on_chat_member_update update context w).1 in
  w' = w
  ∧ (∀ c, stored w' c = stored w c)
  ∧ clock w' = clock w
  ∧ dom (canais w') = dom (canais w)
  ∧ ∀ c t ok, SendMessage c t ok ∉ emitted w w'.
Proof.
  simpl.
  assert ((on_chat_member_update update context w).1 = w) as ->
    by (destruct (on_chat_member_update_cases update context w) as [-> | [e ->]]; done).
  repeat (split; [done|]). intros c t ok. unfold emitted.
  rewrite drop_all. apply not_elem_of_nil.
Qed.

(** X12: the button handler always answers the callback first; it edits the
    message, with one text, exactly when the callback data is one of the two
    known options, and does nothing more for any other data; the table is
    never touched. *)
Theorem X12_button_ignores_unknown_data (data : string) (w : World) :
  let w' := (button data w).1 in
  (button data w).2 = Returned ()
  ∧ canais w' = canais w
  ∧ (data ∈ ["cadastrar_canal"; "como_funciona"] →
     ∃ text, emitted w w' = [AnswerCallback; EditMessageText text])
  ∧ (data ∉ ["cadastrar_canal"; "como_funciona"] →
     emitted w w' = [AnswerCallback]).
Proof.
  simpl. unfold button, modify, mbind, M_bind. simpl.
  case_bool_decide as H1; [|case_bool_decide as H2]; simpl.
  - repeat (split; [done|]). split.
    + intros _. eexists. apply emitted_app. simpl. by rewrite <- app_assoc.
    + intros Hnot. destruct Hnot. subst data. apply list_elem_of_here.
  - repeat (split; [done|]). split.
    + intros _. eexists. apply emitted_app. simpl. by rewrite <- app_assoc.
    + intros Hnot. destruct Hnot. subst data.
      apply list_elem_of_further, list_elem_of_here.
  - repeat (split; [done|]). split.
    + intros Hin. set_unfold. naive_solver.
    + intros _. by apply emitted_app.
Qed.

Lemma X12_witness :
  emitted Scenario.jan2 (button "outra_coisa" Scenario.jan2).1 = [AnswerCallback]
  ∧ ∃ text, emitted Scenario.jan2 (button "como_funciona" Scenario.jan2).1
            = [AnswerCallback; EditMessageText text].
Proof.
  destruct (X12_button_ignores_unknown_data "outra_coisa" Scenario.jan2)
    as (_ & _ & _ & Hunknown).
  destruct (X12_button_ignores_unknown_data "como_funciona" Scenario.jan2)
    as (_ & _ & Hknown & _).
  split.
  - apply Hunknown. intros Hin.
    apply elem_of_cons in Hin as [Hin|Hin]; [discriminate Hin|].
    apply elem_of_cons in Hin as [Hin|Hin]; [discriminate Hin|].
    by apply elem_of_nil in Hin.
  - apply Hknown. apply list_elem_of_further, list_elem_of_here.
Defined.

(** The loop over the inputs keeps every relation between worlds that is
    reflexive and transitive and that each handled input keeps. *)
Lemma for_each_handle (R : World → World → Prop) (Q : Input → Prop)
    (bot : Bot) (inputs : list Input) (w : World) :
  (∀ w0, R w0 w0) →
  (∀ w0 w1 w2, R w0 w1 → R w1 w2 → R w0 w2) →
  (∀ i w0, Q i → ∃ w1, handle bot i w0 = (w1, Returned ()) ∧ R w0 w1) →
  Forall Q inputs →
  ∃ w', for_each inputs (handle bot) w = (w', Returned ()) ∧ R w w'.
Proof.
  intros Hrefl Htrans Hstep Hall. revert w.
  induction Hall as [|i inputs Hi _ IH]; intros w.
  - exists w. by split.
  - destruct (Hstep i w Hi) as (w1 & Hrun & HR1).
    destruct (IH w1) as (w' & Hloop & HR).
    exists w'. cbn [for_each]. unfold mbind, M_bind at 1. rewrite Hrun, Hloop.
    split; [done|]. by eapply Htrans.
Qed.

Lemma button_frame (data : string) (w : World) :
  ∃ w', button data w = (w', Returned ())
        ∧ canais w' = canais w ∧ clock w' = clock w.
Proof.
  unfold button, modify, mbind, M_bind. simpl.
  repeat case_bool_decide; by eexists.
Qed.

(** Whatever the handler does, its dispatch by the application returns
    normally: in the world the handler left, or in that world with the log
    line of the application. *)
Lemma dispatch_update_returns (handler : M unit) (w : World) :
  ∃ w', dispatch_update handler w = (w', Returned ())
        ∧ (w' = (handler w).1
           ∨ w' = emit (LogError "No error handlers are registered, logging exception.")
                    (handler w).1).
Proof.
  unfold dispatch_update, try_except, logger_error, modify.
  destruct (handler w) as [w1 [[]|e]]; eexists; (split; [reflexivity|]); simpl; eauto.
Qed.

(** Every input is handled without an exception, and none changes the set
    of rows; only a cron firing can change a date. *)
Lemma handle_frame (bot : Bot) (i : Input) (w : World) :
  ∃ w', handle bot i w = (w', Returned ())
        ∧ dom (canais w') = dom (canais w)
        ∧ (i ≠ CronFire → ∀ c, stored w' c = stored w c).
Proof.
  destruct i as [update| |data| |seconds]; simpl.
  - destruct (my_chat_member update); [|by exists w].
    destruct (dispatch_update_returns (on_chat_member_update update (mkContext bot)) w)
      as (w' & Hrun & Hw').
    assert ((on_chat_member_update update (mkContext bot) w).1 = w) as Hsame
      by (destruct (on_chat_member_update_cases update (mkContext bot) w)
            as [-> | [e ->]]; done).
    rewrite Hsame in Hw'. exists w'. split; [done|].
    by destruct Hw' as [-> | ->].
  - eexists. split; [reflexivity|]. by simpl.
  - destruct (button_frame data w) as (w1 & Hbutton & Hcan & _).
    destruct (dispatch_update_returns (button data) w) as (w' & Hrun & Hw').
    rewrite Hbutton in Hw'. simpl in Hw'. exists w'. split; [done|].
    unfold stored. by destruct Hw' as [-> | ->]; simpl; rewrite Hcan.
  - exists (after_run bot w). destruct (run_frame bot w) as [Hdom _].
    split; [|by rewrite Hdom].
    unfold after_run. pose proof (run_returns bot w) as Hret.
    by destruct (enviar_mensagem_programada bot w) as [w' []]; simplify_eq/=.
  - eexists. split; [reflexivity|]. by simpl.
Qed.

(** The process gets past the configuration block exactly when the token is
    a non-empty string and ADMIN_ID a nonzero number. *)
Lemma load_config_Configured (env : Environ) (tok : string) (admin : Z) :
  load_config env = Configured tok admin
  ↔ env_BOT_TOKEN env = Some tok ∧ tok ≠ "" ∧ env_ADMIN_ID env = Some admin ∧ admin ≠ 0.
Proof.
  unfold load_config. destruct env as [[t|] [a|]]; simpl; try naive_solver.
  case_bool_decide as Ht; simpl; [naive_solver|].
  case_bool_decide as Ha; simpl; naive_solver.
Qed.

Lemma main_configured (env : Environ) (connect : string → Bot)
    (inputs : list Input) (w : World) (tok : string) (admin : Z) :
  load_config env = Configured tok admin →
  main env connect inputs w
  = for_each inputs (handle (connect tok))
      (emit (LogInfo "✅ Bot rodando com polling e agendamento diário!")
         (emit (LogInfo "Iniciando o bot...") w)).
Proof. intros Hcfg. unfold main. by rewrite Hcfg. Qed.

Lemma main_not_configured (env : Environ) (connect : string → Bot)
    (inputs : list Input) (w : World) :
  (∀ tok admin, load_config env ≠ Configured tok admin) →
  ∃ w' e evs, main env connect inputs w = (w', Raised e)
              ∧ canais w' = canais w ∧ clock w' = clock w
              ∧ trace w' = trace w ++ evs
              ∧ ∀ ev, ev ∈ evs → ∃ msg, ev = LogError msg.
Proof.
  intros Hnot. unfold main.
  destruct (load_config env) as [tok admin|code|] eqn:Hcfg.
  - by destruct (Hnot tok admin).
  - eexists _, _, [_]. split; [reflexivity|]. simpl. repeat (split; [done|]).
    intros ev Hin. set_unfold. naive_solver.
  - exists w, (Exception "TypeError"), []. split; [reflexivity|].
    rewrite app_nil_r. repeat (split; [done|]). by intros ev ?%elem_of_nil.
Qed.

(** X13: when the token is missing or empty, or ADMIN_ID is missing or
    zero, the process stops with an exception before it handles any input:
    whatever the inputs, the table and the clock are as before, nothing is
    sent, and the only events are error log lines. *)
Theorem X13_misconfigured_process_handles_nothing (env : Environ)
    (connect : string → Bot) (inputs : list Input) (w : World) :
  env_BOT_TOKEN env = None ∨ env_BOT_TOKEN env = Some ""
  ∨ env_ADMIN_ID env = None ∨ env_ADMIN_ID env = Some 0 →
  let w' := (main env connect inputs w).1 in
  (∃ e, (main env connect inputs w).2 = Raised e)
  ∧ canais w' = canais w ∧ clock w' = clock w
  ∧ ∀ ev, ev ∈ emitted w w' → ∃ msg, ev = LogError msg.
Proof.
  intros Hbad. simpl.
  destruct (main_not_configured env connect inputs w)
    as (w' & e & evs & -> & Hcan & Hclk & Htr & Hlog).
  { intros tok admin (Htok & Hne & Hadm & Hnz)%load_config_Configured.
    destruct Hbad as [?|[?|[?|?]]]; congruence. }
  simpl. rewrite (emitted_app _ _ _ Htr). split; [by exists e|done].
Qed.

Lemma X13_witness :
  let env := mkEnviron (Some "123:abc") (Some 0) in
  let inputs := [ChatMemberUpdate Scenario.promoted; CronFire] in
  canais (main env (λ _, Scenario.delivers) inputs Scenario.jan2).1
  = canais Scenario.jan2.
Proof.
  intros env inputs.
  destruct (X13_misconfigured_process_handles_nothing env (λ _, Scenario.delivers)
              inputs Scenario.jan2) as (_ & Hcan & _).
  - right; right; right. reflexivity.
  - exact Hcan.
Defined.



(** The relation kept by the inputs of a process carries over to [main],
    configured or not, when the start-up itself keeps it. *)
Lemma main_frame (R : World → World → Prop) (Q : Input → Prop)
    (env : Environ) (connect : string → Bot) (inputs : list Input) (w : World) :
  (∀ w0, R w0 w0) →
  (∀ w0 w1 w2, R w0 w1 → R w1 w2 → R w0 w2) →
  (∀ w0 w1, canais w1 = canais w0 → R w0 w1) →
  (∀ bot i w0, Q i → ∃ w1, handle bot i w0 = (w1, Returned ()) ∧ R w0 w1) →
  Forall Q inputs →
  R w (main env connect inputs w).1.
Proof.
  intros Hrefl Htrans Hsame Hstep Hall.
  destruct (load_config env) as [tok admin|code|] eqn:Hcfg.
  - rewrite (main_configured env connect inputs w tok admin Hcfg).
    destruct (for_each_handle R Q (connect tok) inputs
                (emit (LogInfo "✅ Bot rodando com polling e agendamento diário!")
                   (emit (LogInfo "Iniciando o bot...") w)))
      as (w' & -> & HR); [done|done|by apply Hstep|done|].
    simpl. eapply Htrans; [|exact HR]. by apply Hsame.
  - destruct (main_not_configured env connect inputs w)
      as (w' & e & evs & -> & Hcan & _); [intros; congruence|].
    by apply Hsame.
  - destruct (main_not_configured env connect inputs w)
      as (w' & e & evs & -> & Hcan & _); [intros; congruence|].
    by apply Hsame.
Qed.

(** X15: only a cron firing changes dates: over inputs without one (chat
    member updates, menu traffic, time going by), every date that can be
    read is after the process what it was before. *)
Theorem X15_dates_change_only_in_runs (env : Environ) (connect : string → Bot)
    (inputs : list Input) (w : World) :
  CronFire ∉ inputs →
  ∀ c, stored (main env connect inputs w).1 c = stored w c.
Proof.
  intros Hnone.
  apply (main_frame (λ w0 w1, ∀ c, stored w1 c = stored w0 c) (λ i, i ≠ CronFire)).
  - done.
  - intros w0 w1 w2 H01 H12 c. by rewrite H12.
  - intros w0 w1 Hcan c. unfold stored. by rewrite Hcan.
  - intros bot i w0 Hi. destruct (handle_frame bot i w0) as (w1 & Hrun & _ & Hdates).
    exists w1. split; [done|]. by apply Hdates.
  - apply Forall_forall. intros i Hin ->. done.
Qed.

Lemma X15_witness :
  let env := mkEnviron (Some "123:abc") (Some 11) in
  let inputs := [ChatMemberUpdate Scenario.rights_edited; StartCommand; Elapse 86400] in
  stored (main env (λ _, Scenario.delivers) inputs Scenario.jan2).1 100
  = stored Scenario.jan2 100.
Proof.
  intros env inputs.
  apply (X15_dates_change_only_in_runs env (λ _, Scenario.delivers) inputs).
  intros Hin.
  apply elem_of_cons in Hin as [Hin|Hin]; [discriminate Hin|].
  apply elem_of_cons in Hin as [Hin|Hin]; [discriminate Hin|].
  apply elem_of_cons in Hin as [Hin|Hin]; [discriminate Hin|].
  by apply elem_of_nil in Hin.
Defined.

(** X16: only a chat-member update registers a channel: over inputs without
    one (cron firings, menu traffic, time going by), the set of registered
    channels is after the process what it was before. *)
Theorem X16_rows_change_only_in_welcome (env : Environ) (connect : string → Bot)
    (inputs : list Input) (w : World) :
  (∀ update, ChatMemberUpdate update ∉ inputs) →
  dom (canais (main env connect inputs w).1) = dom (canais w).
Proof.
  intros Hnone.
  apply (main_frame (λ w0 w1, dom (canais w1) = dom (canais w0))
           (λ i, ∀ update, i ≠ ChatMemberUpdate update)).
  - done.
  - intros w0 w1 w2 H01 H12. by rewrite H12.
  - intros w0 w1 Hcan. by rewrite Hcan.
  - intros bot i w0 Hi. destruct (handle_frame bot i w0) as (w1 & Hrun & Hdom & _).
    by exists w1.
  - apply Forall_forall. intros i Hin update ->. by destruct (Hnone update).
Qed.

Lemma X16_witness :
  let env := mkEnviron (Some "123:abc") (Some 11) in
  let inputs := [CronFire; CallbackQuery "cadastrar_canal"] in
  dom (canais (main env (λ _, Scenario.delivers) inputs Scenario.jan2).1)
  = dom (canais Scenario.jan2).
Proof.
  intros env inputs.
  apply (X16_rows_change_only_in_welcome env (λ _, Scenario.delivers) inputs).
  intros update Hin.
  apply elem_of_cons in Hin as [Hin|Hin]; [discriminate Hin|].
  apply elem_of_cons in Hin as [Hin|Hin]; [discriminate Hin|].
  by apply elem_of_nil in Hin.
Defined.

Lemma run_sends_unserved (bot : Bot) (w : World) (c : Z) :
  canais w !! c = Some None → sent_to c (emitted w (after_run bot w)).
Proof.
  intros Hrow.
  assert (stored w c = None) as Hstored by (unfold stored; by rewrite Hrow).
  apply elem_of_map_to_list, list_elem_of_split in Hrow as (pre & post & Hrows).
  destruct (run_at_row bot w pre post c None Hrows)
    as [(Hgate & _)|[(_ & Hyes & _)|(_ & Hyes & _)]];
    [congruence|by exists broadcast_text, true|by exists broadcast_text, false].
Qed.

Lemma run_skips_unknown (bot : Bot) (w : World) (c : Z) :
  canais w !! c = None → ¬ sent_to c (emitted w (after_run bot w)).
Proof.
  intros Hnone (t & ok & Hin).
  destruct (for_each_canal_summary bot (map_to_list (canais w)) w)
    as (w' & evs & Hloop & Htr & _ & Hsend & _).
  assert (after_run bot w = w') as Hafter.
  { unfold after_run, enviar_mensagem_programada, mbind, M_bind, get_canais, gets.
    by rewrite Hloop. }
  rewrite Hafter, (emitted_app _ _ _ Htr) in Hin.
  apply Hsend, list_elem_of_fmap in Hin as ((c' & x) & -> & Hin%elem_of_map_to_list).
  simpl in Hnone. congruence.
Qed.

(** X17: the welcome decides whether a new channel is ever served.  When
    [send_welcome_message] is called for a chat that has no row, the run
    that follows sends the broadcast to that chat if the welcome message was
    delivered, and sends nothing to it if the welcome message failed. *)
Theorem X17_welcome_decides_next_run (update : Update) (context : Context)
    (chat_id : Z) (bot' : Bot) (w : World) :
  canais w !! chat_id = None →
  let w1 := (send_welcome_message update context chat_id w).1 in
  (send_result (bot context) w chat_id welcome_text = None →
   sent_to chat_id (emitted w1 (after_run bot' w1)))
  ∧ (∀ e, send_result (bot context) w chat_id welcome_text = Some e →
     ¬ sent_to chat_id (emitted w1 (after_run bot' w1))).
Proof.
  intros Hnew. simpl. split.
  - intros Hnet. rewrite (send_welcome_message_delivered _ _ _ _ Hnet). simpl.
    apply run_sends_unserved. simpl.
    by rewrite insert_or_ignore_lookup, Hnew.
  - intros e Hnet. rewrite (send_welcome_message_failed _ _ _ _ _ Hnet). simpl.
    by apply run_skips_unknown.
Qed.

Lemma X17_witness :
  let w1 := (send_welcome_message Scenario.promoted
               (mkContext (Scenario.fails_for (-1001))) (-1001) Scenario.jan2).1 in
  ¬ sent_to (-1001) (emitted w1 (after_run Scenario.delivers w1)).
Proof.
  intros w1.
  destruct (X17_welcome_decides_next_run Scenario.promoted
              (mkContext (Scenario.fails_for (-1001))) (-1001)
              Scenario.delivers Scenario.jan2)
    as [_ Hfail].
  - vm_compute; reflexivity.
  - apply (Hfail (Exception "Forbidden")). vm_compute; reflexivity.
Defined.

(** X20: the running process never registers a channel.  [add_canal] is
    reached only through the chat-member handler, which raises before it
    gets there, so over any inputs at all the set of registered channels is
    after the process what it was before. *)
Theorem X20_process_never_registers (env : Environ) (connect : string → Bot)
    (inputs : list Input) (w : World) :
  dom (canais (main env connect inputs w).1) = dom (canais w).
Proof.
  apply (main_frame (λ w0 w1, dom (canais w1) = dom (canais w0)) (λ _, True)).
  - done.
  - intros w0 w1 w2 H01 H12. by rewrite H12.
  - intros w0 w1 Hcan. by rewrite Hcan.
  - intros bot i w0 _. destruct (handle_frame bot i w0) as (w1 & Hrun & Hdom & _).
    by exists w1.
  - by apply Forall_true.
Qed.

(** X21: on stored dates that are not after the host's date the gate is the
    rule "absent or strictly less": for a row whose stored date, if any, is
    not later than the date read at its turn, the run sends to the channel
    if and only if the stored date is absent or strictly before that
    date. *)
Theorem X21_gate_on_past_dates (bot : Bot) (w : World)
    (pre post : list (Z * option string)) (c : Z) (x : option string) :
  map_to_list (canais w) = pre ++ (c, x) :: post →
  let today := today_of (turn bot pre w) in
  (∀ d, stored w c = Some d → String.ltb today d = false) →
  sent_to c (emitted w (after_run bot w)) ↔ eligible_by_spec (stored w c) today.
Proof.
  intros Hrows today Hpast. subst today.
  assert (∀ d t, d ≠ t → String.ltb t d = false → String.ltb d t = true) as Horder.
  { intros d t Hne. unfold String.ltb. rewrite (String.compare_antisym d t).
    destruct (String.compare t d) eqn:Hcmp; simpl; try done.
    apply String.compare_eq_iff in Hcmp. congruence. }
  assert (∀ t, String.ltb t t = false) as Hirrefl.
  { intros t. unfold String.ltb. pose proof (String.compare_antisym t t) as Hanti.
    by destruct (String.compare t t). }
  destruct (run_at_row bot w pre post c x Hrows)
    as [(Hgate & Hno & _)|[(Hgate & Hyes & _)|(Hgate & Hyes & _)]].
  - split; [intros (t & ok & Hin); by destruct (Hno t ok)|].
    rewrite Hgate. simpl. by rewrite Hirrefl.
  - split; [|intros _; by exists broadcast_text, true]. intros _.
    destruct (stored w c) as [d|] eqn:Hd; simpl; [|done].
    apply Horder; [congruence|by apply Hpast].
  - split; [|intros _; by exists broadcast_text, false]. intros _.
    destruct (stored w c) as [d|] eqn:Hd; simpl; [|done].
    apply Horder; [congruence|by apply Hpast].
Qed.

Lemma X21_witness :
  sent_to 100 (emitted Scenario.jan2 (after_run Scenario.delivers Scenario.jan2))
  ↔ eligible_by_spec (stored Scenario.jan2 100)
      (today_of (turn Scenario.delivers [] Scenario.jan2)).
Proof.
  apply (X21_gate_on_past_dates Scenario.delivers Scenario.jan2
           [] [(200, None)] 100 (Some "2024-01-01")).
  - vm_compute; reflexivity.
  - intros d Hd. vm_compute in Hd. injection Hd as <-. vm_compute; reflexivity.
Defined.

(** X22: the welcome flow, for whatever chat it is called with, never
    raises, never changes a date that can be read (welcoming a channel again
    does not reset its date) and never moves the clock; it removes no row and
    can add a row for that chat only; and the one message it sends is the
    welcome text to that chat. *)
Theorem X22_welcome_keeps_dates (update : Update) (context : Context)
    (chat_id : Z) (w : World) :
  let w' := (send_welcome_message update context chat_id w).1 in
  (send_welcome_message update context chat_id w).2 = Returned ()
  ∧ (∀ c, stored w' c = stored w c)
  ∧ clock w' = clock w
  ∧ dom (canais w) ⊆ dom (canais w')
  ∧ dom (canais w') ⊆ {[chat_id]} ∪ dom (canais w)
  ∧ sends_to chat_id (emitted w w') = 1%nat
  ∧ ∀ c t ok, SendMessage c t ok ∈ emitted w w' → c = chat_id ∧ t = welcome_text.
Proof.
  simpl.
  destruct (send_result (bot context) w chat_id welcome_text) as [e|] eqn:Hnet.
  - rewrite (send_welcome_message_failed _ _ _ _ _ Hnet). simpl.
    rewrite (emitted_app _ _ [SendMessage chat_id welcome_text false; LogError _])
      by (simpl; by rewrite <- app_assoc).
    repeat (split; [done|]). split; [set_solver|]. split.
    + unfold sends_to. rewrite filter_cons_True by (simpl; by case_bool_decide).
      by rewrite filter_cons_False by done.
    + intros c t ok Hin. set_unfold. naive_solver.
  - rewrite (send_welcome_message_delivered _ _ _ _ Hnet). simpl.
    rewrite (emitted_app _ _ [SendMessage chat_id welcome_text true; LogInfo _])
      by (simpl; by rewrite <- app_assoc).
    split; [done|]. split; [intros c; apply (stored_insert_or_ignore _ c w)|].
    split; [done|]. rewrite dom_insert_or_ignore.
    split; [set_solver|]. split; [set_solver|]. split.
    + unfold sends_to. rewrite filter_cons_True by (simpl; by case_bool_decide).
      by rewrite filter_cons_False by done.
    + intros c t ok Hin. set_unfold. naive_solver.
Qed.

Lemma X22_witness :
  let w' := (send_welcome_message Scenario.promoted
               (mkContext Scenario.delivers) 100 Scenario.jan2).1 in
  SendMessage 100 welcome_text true ∈ emitted Scenario.jan2 w'
  ∧ stored w' 100 = Some "2024-01-01".
Proof.
  intros w'.
  destruct (X22_welcome_keeps_dates Scenario.promoted (mkContext Scenario.delivers)
              100 Scenario.jan2) as (_ & Hdates & _).
  split.
  - replace (emitted _ _) with
      [SendMessage 100 welcome_text true; LogInfo "Canal 100 registrado com sucesso!"]
      by (vm_compute; reflexivity).
    apply list_elem_of_here.
  - fold w' in Hdates. rewrite (Hdates 100). vm_compute; reflexivity.
Defined.
